(** * fitbit: a client of the Fitbit web API (fitbit.go)

    A shallow embedding of the request builder [NewRequest], the request
    executor [Do] and the two accessors [ActivitySummaryForDay] and
    [UserProfile], with the part of Go's standard library they call.

    - Go's [int] is the 64-bit integer of the usual platforms, a [Z] with
      its range checked where the library checks it.
    - A [float64] is kept as the decimal literal it was read from: the
      client stores these fields and never computes with them.
    - A Go [error] is a value of [error]; a nil error is [None].
    - Effects (requests sent, bodies read and closed) are written to a
      trace threaded through a state monad [M], which can also panic.
    - A [Client] is one built by [NewClient]: its two pointers are not nil. *)

From Stdlib Require Import ZArith Ascii String List.
From stdpp Require Import base option strings gmap list.

Set Warnings "-register-all".

Local Open Scope string_scope.
Local Open Scope Z_scope.

(** ** Errors *)

(** The dynamic types of the errors this client can meet. *)
Inductive error : Type :=
  | errorString (s : string)                    (* errors.New, fmt.Errorf *)
  | url_Error (Op URL : string) (Err : error)   (* *url.Error *)
  | json_SyntaxError                            (* *json.SyntaxError *)
  | json_UnmarshalTypeError (Value Type_ : string)
  | json_UnsupportedTypeError (Type_ : string)
  | http_invalidMethod (method : string).
      (* fmt.Errorf("net/http: invalid method %q", method) *)

Definition errors_New (s : string) : error := errorString s.
Definition io_EOF : error := errors_New "EOF".
Definition io_ErrUnexpectedEOF : error := errors_New "unexpected EOF".

(** The double quote, and a way to write JSON texts with single quotes. *)
Definition dquote : ascii := "034"%char.

Fixpoint js (s : string) : string :=
  match s with
  | EmptyString => EmptyString
  | String c r => String (if Ascii.eqb c "'" then dquote else c) (js r)
  end.

(** A float64, by a decimal literal that denotes it. *)
Record float64 : Type := Float64 { literal : string }.

(** ** encoding/json, the decoder

    What [json.NewDecoder(r).Decode(v)] does with the bytes of [r]: it
    scans one JSON value (a syntax error leaves [v] untouched), then stores
    it into [v] field by field, keeps the first type error and goes on. *)
Module Json.

Inductive value : Type :=
  | Null
  | Bool (b : bool)
  | Number (lit : string)
  | Str (s : string)
  | Array (elems : list value)
  | Object (members : list (string * value)).

Inductive scan_error : Type := UnexpectedEOF | Syntax.

Definition scanned (A : Type) : Type := (A * string + scan_error)%type.

Definition isSpace (c : ascii) : bool :=
  Ascii.eqb c " " || Ascii.eqb c "009" || Ascii.eqb c "013" || Ascii.eqb c "010".

Fixpoint skip_space (s : string) : string :=
  match s with
  | String c r => if isSpace c then skip_space r else s
  | EmptyString => s
  end.

Definition code (c : ascii) : Z := Z.of_N (N_of_ascii c).

Definition isDigit (c : ascii) : bool := (48 <=? code c) && (code c <=? 57).

(** The longest run of digits at the head of [s], and what follows. *)
Fixpoint digits (s : string) : string * string :=
  match s with
  | String c r =>
      if isDigit c then let '(d, r') := digits r in (String c d, r') else (EmptyString, s)
  | EmptyString => (EmptyString, s)
  end.

(** What to report where a token stops: the end of the input, or a byte
    that cannot go on. *)
Definition stop {A : Type} (s : string) : scanned A :=
  match s with EmptyString => inr UnexpectedEOF | _ => inr Syntax end.

(** The first byte that is no space, and what follows it. *)
Definition next (s : string) : option (ascii * string) :=
  match skip_space s with
  | String c r => Some (c, r)
  | EmptyString => None
  end.

(** number = [ - ] int [ . digits ] [ (e|E) [ + | - ] digits ] *)
Definition scan_int (s : string) : scanned string :=
  match s with
  | String c r =>
      if Ascii.eqb c "0" then inl ("0", r)
      else if isDigit c then let '(d, r') := digits r in inl (String c d, r')
      else inr Syntax
  | EmptyString => inr UnexpectedEOF
  end.

Definition scan_frac (s : string) : scanned string :=
  match s with
  | String c r =>
      if Ascii.eqb c "." then
        let '(d, r') := digits r in
        if String.eqb d EmptyString then stop r' else inl (String c d, r')
      else inl (EmptyString, s)
  | EmptyString => inl (EmptyString, s)
  end.

Definition scan_sign (s : string) : string * string :=
  match s with
  | String c r =>
      if Ascii.eqb c "+" || Ascii.eqb c "-"
      then (String c EmptyString, r) else (EmptyString, s)
  | EmptyString => (EmptyString, s)
  end.

Definition scan_exp (s : string) : scanned string :=
  match s with
  | String c r =>
      if Ascii.eqb c "e" || Ascii.eqb c "E" then
        let '(sign, r1) := scan_sign r in
        let '(d, r') := digits r1 in
        if String.eqb d EmptyString then stop r' else inl (String c (sign +:+ d), r')
      else inl (EmptyString, s)
  | EmptyString => inl (EmptyString, s)
  end.

Definition scan_minus (s : string) : string * string :=
  match s with
  | String c r => if Ascii.eqb c "-" then (String c EmptyString, r) else (EmptyString, s)
  | EmptyString => (EmptyString, s)
  end.

Definition scan_number (s : string) : scanned string :=
  let '(sign, r0) := scan_minus s in
  match scan_int r0 with
  | inr e => inr e
  | inl (i, r1) =>
      match scan_frac r1 with
      | inr e => inr e
      | inl (f, r2) =>
          match scan_exp r2 with
          | inr e => inr e
          | inl (x, r3) => inl (sign +:+ i +:+ f +:+ x, r3)
          end
      end
  end.

(** A literal name ([true], [false], [null]) whose first byte is read. *)
Fixpoint scan_name (name s : string) : scanned unit :=
  match name with
  | EmptyString => inl (tt, s)
  | String c name' =>
      match s with
      | String c' r => if Ascii.eqb c c' then scan_name name' r else inr Syntax
      | EmptyString => inr UnexpectedEOF
      end
  end.

(** *** String literals *)

Definition byte (z : Z) : ascii := ascii_of_N (Z.to_N z).

Definition hexval (c : ascii) : option Z :=
  let n := code c in
  if (48 <=? n) && (n <=? 57) then Some (n - 48)
  else if (97 <=? n) && (n <=? 102) then Some (n - 87)
  else if (65 <=? n) && (n <=? 70) then Some (n - 55)
  else None.

(** The byte a one-letter escape stands for. *)
Definition unescape (c : ascii) : option ascii :=
  if Ascii.eqb c dquote then Some dquote
  else if Ascii.eqb c "\" then Some "\"%char
  else if Ascii.eqb c "/" then Some "/"%char
  else if Ascii.eqb c "b" then Some "008"%char
  else if Ascii.eqb c "f" then Some "012"%char
  else if Ascii.eqb c "n" then Some "010"%char
  else if Ascii.eqb c "r" then Some "013"%char
  else if Ascii.eqb c "t" then Some "009"%char
  else None.

(** The states of the scanner inside a string literal: in the text, after
    a backslash, and in a [\u] escape with [n] more digits to come after
    the next one. *)
Inductive string_state : Type :=
  | InString
  | InStringEsc
  | InStringEscU (n : nat).

Definition prepend (c : ascii) (r : scanned string) : scanned string :=
  match r with
  | inl (s, rest) => inl (String c s, rest)
  | inr e => inr e
  end.

(** The text of a string literal up to its closing quote, escapes as
    they are written, and what follows the quote. *)
Fixpoint scan_literal (state : string_state) (s : string) : scanned string :=
  match s with
  | EmptyString => inr UnexpectedEOF
  | String c r =>
      match state with
      | InString =>
          if Ascii.eqb c dquote then inl (EmptyString, r)
          else if Ascii.eqb c "\" then prepend c (scan_literal InStringEsc r)
          else if code c <? 32 then inr Syntax
          else prepend c (scan_literal InString r)
      | InStringEsc =>
          if Ascii.eqb c "u" then prepend c (scan_literal (InStringEscU 3) r)
          else
            match unescape c with
            | Some _ => prepend c (scan_literal InString r)
            | None => inr Syntax
            end
      | InStringEscU n =>
          match hexval c with
          | Some _ =>
              prepend c (scan_literal
                           (match n with O => InString | S n' => InStringEscU n' end) r)
          | None => inr Syntax
          end
      end
  end.

(** getu4: the rune of four hexadecimal digits. *)
Definition getu4 (a b c d : ascii) : option Z :=
  match hexval a, hexval b, hexval c, hexval d with
  | Some x, Some y, Some z, Some w => Some (((x * 16 + y) * 16 + z) * 16 + w)
  | _, _, _, _ => None
  end.

Definition ReplacementChar : Z := 65533.

Definition IsSurrogate (r : Z) : bool := (55296 <=? r) && (r <? 57344).

(** utf16.DecodeRune *)
Definition DecodeRune (r1 r2 : Z) : Z :=
  if (55296 <=? r1) && (r1 <? 56320) && (56320 <=? r2) && (r2 <? 57344)
  then (r1 - 55296) * 1024 + (r2 - 56320) + 65536
  else ReplacementChar.

(** utf8.EncodeRune, for a rune that is no surrogate. *)
Definition EncodeRune (r : Z) : string :=
  if r <? 128 then String (byte r) EmptyString
  else if r <? 2048 then
    String (byte (192 + r / 64)) (String (byte (128 + r mod 64)) EmptyString)
  else if r <? 65536 then
    String (byte (224 + r / 4096))
      (String (byte (128 + (r / 64) mod 64)) (String (byte (128 + r mod 64)) EmptyString))
  else
    String (byte (240 + r / 262144))
      (String (byte (128 + (r / 4096) mod 64))
         (String (byte (128 + (r / 64) mod 64)) (String (byte (128 + r mod 64)) EmptyString))).

(** The rune of a [\uXXXX] at the head of [s]. *)
Definition escaped_rune (s : string) : option Z :=
  match s with
  | String "\" (String "u" (String a (String b (String c (String d _))))) =>
      getu4 a b c d
  | _ => None
  end.

(** unquote: the bytes that the text of a literal stands for. A [\u]
    escape gives the UTF-8 bytes of its rune; a surrogate joins the
    [\u] escape after it when the two make a pair, and is U+FFFD when
    they do not. Bytes from 128 up are copied as they stand (Go also
    replaces ill-formed UTF-8 by U+FFFD). *)
Fixpoint unquote (s : string) : string :=
  match s with
  | EmptyString => EmptyString
  | String c r =>
      if Ascii.eqb c "\" then
        match r with
        | String "u" (String a (String b (String c' (String d r1)))) =>
            let rr := default ReplacementChar (getu4 a b c' d) in
            if IsSurrogate rr then
              match r1 with
              | String _ (String _ (String _ (String _ (String _ (String _ r2))))) =>
                  let dec := DecodeRune rr (default 0 (escaped_rune r1)) in
                  if dec =? ReplacementChar
                  then EncodeRune ReplacementChar +:+ unquote r1
                  else EncodeRune dec +:+ unquote r2
              | _ => EncodeRune ReplacementChar +:+ unquote r1
              end
            else EncodeRune rr +:+ unquote r1
        | String e r1 => String (default e (unescape e)) (unquote r1)
        | EmptyString => EmptyString
        end
      else String c (unquote r)
  end.

(** A string literal whose opening quote is read. *)
Definition scan_string (s : string) : scanned string :=
  match scan_literal InString s with
  | inl (text, r) => inl (unquote text, r)
  | inr e => inr e
  end.

(** *** Values

    One step of the scan of a value, of the members of an object after
    its brace or a comma, and of the elements of an array after its
    bracket or a comma, given the scans that the step calls. *)

Definition value_step (members : string -> list (string * value) -> scanned value)
    (elements : string -> list value -> scanned value) (s : string) : scanned value :=
  match next s with
  | None => inr UnexpectedEOF
  | Some (c, r) =>
      if Ascii.eqb c "{" then
        match next r with
        | None => inr UnexpectedEOF
        | Some (c', r') =>
            if Ascii.eqb c' "}" then inl (Object [], r') else members r []
        end
      else if Ascii.eqb c "[" then
        match next r with
        | None => inr UnexpectedEOF
        | Some (c', r') =>
            if Ascii.eqb c' "]" then inl (Array [], r') else elements r []
        end
      else if Ascii.eqb c dquote then
        match scan_string r with
        | inl (x, r') => inl (Str x, r')
        | inr e => inr e
        end
      else if Ascii.eqb c "t" then
        match scan_name "rue" r with
        | inl (_, r') => inl (Bool true, r')
        | inr e => inr e
        end
      else if Ascii.eqb c "f" then
        match scan_name "alse" r with
        | inl (_, r') => inl (Bool false, r')
        | inr e => inr e
        end
      else if Ascii.eqb c "n" then
        match scan_name "ull" r with
        | inl (_, r') => inl (Null, r')
        | inr e => inr e
        end
      else
        match scan_number (String c r) with
        | inl (lit, r') => inl (Number lit, r')
        | inr e => inr e
        end
  end.

Definition members_step (value_ : string -> scanned value)
    (members : string -> list (string * value) -> scanned value)
    (s : string) (acc : list (string * value)) : scanned value :=
  match next s with
  | None => inr UnexpectedEOF
  | Some (c, r) =>
      if Ascii.eqb c dquote then
        match scan_string r with
        | inr e => inr e
        | inl (key, r1) =>
            match next r1 with
            | None => inr UnexpectedEOF
            | Some (c1, r2) =>
                if Ascii.eqb c1 ":" then
                  match value_ r2 with
                  | inr e => inr e
                  | inl (v, r3) =>
                      match next r3 with
                      | None => inr UnexpectedEOF
                      | Some (c3, r4) =>
                          if Ascii.eqb c3 "," then members r4 (acc ++ [(key, v)])%list
                          else if Ascii.eqb c3 "}" then
                            inl (Object (acc ++ [(key, v)])%list, r4)
                          else inr Syntax
                      end
                  end
                else inr Syntax
            end
        end
      else inr Syntax
  end.

Definition elements_step (value_ : string -> scanned value)
    (elements : string -> list value -> scanned value)
    (s : string) (acc : list value) : scanned value :=
  match value_ s with
  | inr e => inr e
  | inl (v, r1) =>
      match next r1 with
      | None => inr UnexpectedEOF
      | Some (c, r2) =>
          if Ascii.eqb c "," then elements r2 (acc ++ [v])%list
          else if Ascii.eqb c "]" then inl (Array (acc ++ [v])%list, r2)
          else inr Syntax
      end
  end.

(** The scans, with a bound on the depth of their calls. *)
Fixpoint scan_value (fuel : nat) (s : string) : scanned value :=
  match fuel with
  | O => inr Syntax
  | S fuel => value_step (scan_members fuel) (scan_elements fuel) s
  end

with scan_members (fuel : nat) (s : string) (acc : list (string * value))
  : scanned value :=
  match fuel with
  | O => inr Syntax
  | S fuel => members_step (scan_value fuel) (scan_members fuel) s acc
  end

with scan_elements (fuel : nat) (s : string) (acc : list value) : scanned value :=
  match fuel with
  | O => inr Syntax
  | S fuel => elements_step (scan_value fuel) (scan_elements fuel) s acc
  end.

(** readValue: the next value of the stream; what follows it stays
    unread. Two units of fuel for each byte of the input are enough: more
    fuel gives the same result ([scan_value_fuel]). *)
Definition readValue (data : string) : value + error :=
  match next data with
  | None => inr io_EOF
  | Some _ =>
      match scan_value (2 * String.length data + 2) data with
      | inl (v, _) => inl v
      | inr UnexpectedEOF => inr io_ErrUnexpectedEOF
      | inr Syntax => inr json_SyntaxError
      end
  end.

(** *** Storing a value into a Go variable

    Each [store_] function takes the JSON value and the variable's present
    content, and gives the new content and the type error met, if any.
    [null] leaves a variable of these kinds as it is. *)

Definition kind (v : value) : string :=
  match v with
  | Null => "null"
  | Bool _ => "bool"
  | Number _ => "number"
  | Str _ => "string"
  | Array _ => "array"
  | Object _ => "object"
  end.

Definition typeError (v : value) (typ : string) : error :=
  json_UnmarshalTypeError (kind v) typ.

(** saveError keeps the first error. *)
Definition saveError (saved new : option error) : option error :=
  match saved with Some _ => saved | None => new end.

Fixpoint decimal (acc : Z) (s : string) : option Z :=
  match s with
  | EmptyString => Some acc
  | String c r => if isDigit c then decimal (acc * 10 + (code c - 48)) r else None
  end.

(** strconv.ParseInt(lit, 10, 64) on a JSON number. *)
Definition ParseInt (lit : string) : option Z :=
  let '(neg, ds) :=
    match lit with
    | String "-" r => (true, r)
    | _ => (false, lit)
    end in
  match decimal 0 ds with
  | Some n =>
      let z := if neg then - n else n in
      if (- 2 ^ 63 <=? z) && (z <? 2 ^ 63) then Some z else None
  | None => None
  end.

Definition store_int (v : value) (old : Z) : Z * option error :=
  match v with
  | Null => (old, None)
  | Number lit =>
      match ParseInt lit with
      | Some n => (n, None)
      | None => (old, Some (json_UnmarshalTypeError ("number " +:+ lit) "int"))
      end
  | _ => (old, Some (typeError v "int"))
  end.

(** The parts of a JSON number: the digits before and after the point,
    and the exponent. *)
Definition number_parts (lit : string) : string * string * Z :=
  let unsigned := match lit with String "-" r => r | _ => lit end in
  let '(i, r1) := digits unsigned in
  let '(f, r2) := match r1 with String "." r => digits r | _ => (EmptyString, r1) end in
  let x :=
    match r2 with
    | String _ (String "-" r) => - default 0 (decimal 0 r)
    | String _ (String "+" r) => default 0 (decimal 0 r)
    | String _ r => default 0 (decimal 0 r)
    | EmptyString => 0
    end in
  (i, f, x).

(** Whether the number rounds to an infinity: it is at least
    2^1024 - 2^970, half way between the largest float64 and 2^1024. *)
Definition overflows (lit : string) : bool :=
  let '(i, f, x) := number_parts lit in
  let d := default 0 (decimal 0 (i +:+ f)) in
  let e := x - Z.of_nat (String.length f) in
  let len := Z.of_nat (String.length (i +:+ f)) in
  let top := 2 ^ 1024 - 2 ^ 970 in
  if d =? 0 then false
  else if 0 <=? e then (400 <? e) || (top <=? d * 10 ^ e)
  else if len <=? - e then false
  else top * 10 ^ (- e) <=? d.

Definition store_float64 (v : value) (old : float64) : float64 * option error :=
  match v with
  | Null => (old, None)
  | Number lit =>
      if overflows lit
      then (old, Some (json_UnmarshalTypeError ("number " +:+ lit) "float64"))
      else (Float64 lit, None)
  | _ => (old, Some (typeError v "float64"))
  end.

Definition store_string (v : value) (old : string) : string * option error :=
  match v with
  | Null => (old, None)
  | Str s => (s, None)
  | _ => (old, Some (typeError v "string"))
  end.

Definition store_bool (v : value) (old : bool) : bool * option error :=
  match v with
  | Null => (old, None)
  | Bool b => (b, None)
  | _ => (old, Some (typeError v "bool"))
  end.

(** Field names are matched without regard to the case of letters. *)
Definition lower (c : ascii) : ascii :=
  if (65 <=? code c) && (code c <=? 90) then byte (code c + 32) else c.

Fixpoint foldName (s : string) : string :=
  match s with
  | EmptyString => EmptyString
  | String c r => String (lower c) (foldName r)
  end.

Fixpoint field {T : Type} (fields : list (string * (value -> T -> T * option error)))
    (key : string) : option (value -> T -> T * option error) :=
  match fields with
  | [] => None
  | (name, store) :: rest =>
      if String.eqb (foldName name) (foldName key) then Some store else field rest key
  end.

(** An object read into a struct: each member goes to the field of its
    name, in the order of the text; a member of no field is skipped. *)
Fixpoint store_members {T : Type} (fields : list (string * (value -> T -> T * option error)))
    (members : list (string * value)) (old : T) (saved : option error)
  : T * option error :=
  match members with
  | [] => (old, saved)
  | (key, v) :: rest =>
      match field fields key with
      | Some store =>
          let '(new, e) := store v old in
          store_members fields rest new (saveError saved e)
      | None => store_members fields rest old saved
      end
  end.

Definition store_struct {T : Type} (typ : string)
    (fields : list (string * (value -> T -> T * option error)))
    (v : value) (old : T) : T * option error :=
  match v with
  | Null => (old, None)
  | Object members => store_members fields members old None
  | _ => (old, Some (typeError v typ))
  end.

(** An array read into a slice: element [i] is stored over the slice's
    [i]th element, or over a zero value past its length. *)
Fixpoint store_elements {T : Type} (zero : T) (store : value -> T -> T * option error)
    (elems : list value) (old : list T) (saved : option error)
  : list T * option error :=
  match elems with
  | [] => ([], saved)
  | v :: rest =>
      let '(x, e) := store v (hd zero old) in
      let '(xs, saved') := store_elements zero store rest (tl old) (saveError saved e) in
      (x :: xs, saved')
  end.

Definition store_slice {T : Type} (typ : string) (zero : T)
    (store : value -> T -> T * option error)
    (v : value) (old : list T) : list T * option error :=
  match v with
  | Null => ([], None)
  | Array elems => store_elements zero store elems old None
  | _ => (old, Some (typeError v typ))
  end.

(** Decode: nothing is stored unless a whole value could be scanned. *)
Definition Decode {T : Type} (store : value -> T -> T * option error)
    (data : string) (old : T) : T * option error :=
  match readValue data with
  | inl v => store v old
  | inr e => (old, Some e)
  end.

End Json.

(** ** The records of the API (fitbit.go, lines 15-45 and 180-214)

    One module per Go struct: the record [t] with the fields of the
    struct, its zero value, the table of its JSON field names with what
    stores into each, and [store], the decoder's work on a variable of the
    type. *)

Module Goals.

Record t : Type := mk {
  ActiveMinutes : Z;
  CaloriesOut : Z;
  Distance : float64;
  Steps : Z
}.

Definition zero : t :=
  mk 0 0 (Float64 "0") 0.

Definition fields : list (string * (Json.value -> t -> t * option error)) := [
  ("activeMinutes", fun v r => let '(x, e) := Json.store_int v (ActiveMinutes r) in
     (mk x (CaloriesOut r) (Distance r) (Steps r), e));
  ("caloriesOut", fun v r => let '(x, e) := Json.store_int v (CaloriesOut r) in
     (mk (ActiveMinutes r) x (Distance r) (Steps r), e));
  ("distance", fun v r => let '(x, e) := Json.store_float64 v (Distance r) in
     (mk (ActiveMinutes r) (CaloriesOut r) x (Steps r), e));
  ("steps", fun v r => let '(x, e) := Json.store_int v (Steps r) in
     (mk (ActiveMinutes r) (CaloriesOut r) (Distance r) x, e))
].

Definition store : Json.value -> t -> t * option error :=
  Json.store_struct "fitbit.Goals" fields.

End Goals.

Module Distance.

Record t : Type := mk {
  Activity : string;
  Distance : float64
}.

Definition zero : t :=
  mk EmptyString (Float64 "0").

Definition fields : list (string * (Json.value -> t -> t * option error)) := [
  ("activity", fun v r => let '(x, e) := Json.store_string v (Activity r) in
     (mk x (Distance r), e));
  ("distance", fun v r => let '(x, e) := Json.store_float64 v (Distance r) in
     (mk (Activity r) x, e))
].

Definition store : Json.value -> t -> t * option error :=
  Json.store_struct "fitbit.Distance" fields.

End Distance.

Module Summary.

Record t : Type := mk {
  ActiveScore : Z;
  ActivityCalories : Z;
  CaloriesBMR : Z;
  CaloriesOut : Z;
  Distances : list Distance.t;
  FairlyActiveMinutes : Z;
  LightlyActiveMinutes : Z;
  MarginalCalories : Z;
  SedentaryMinutes : Z;
  Steps : Z;
  VeryActiveMinutes : Z
}.

Definition zero : t :=
  mk 0 0 0 0 [] 0 0 0 0 0 0.

Definition fields : list (string * (Json.value -> t -> t * option error)) := [
  ("activeScore", fun v r => let '(x, e) := Json.store_int v (ActiveScore r) in
     (mk x (ActivityCalories r) (CaloriesBMR r) (CaloriesOut r) (Distances r) (FairlyActiveMinutes r) (LightlyActiveMinutes r) (MarginalCalories r) (SedentaryMinutes r) (Steps r) (VeryActiveMinutes r), e));
  ("activityCalories", fun v r => let '(x, e) := Json.store_int v (ActivityCalories r) in
     (mk (ActiveScore r) x (CaloriesBMR r) (CaloriesOut r) (Distances r) (FairlyActiveMinutes r) (LightlyActiveMinutes r) (MarginalCalories r) (SedentaryMinutes r) (Steps r) (VeryActiveMinutes r), e));
  ("caloriesBMR", fun v r => let '(x, e) := Json.store_int v (CaloriesBMR r) in
     (mk (ActiveScore r) (ActivityCalories r) x (CaloriesOut r) (Distances r) (FairlyActiveMinutes r) (LightlyActiveMinutes r) (MarginalCalories r) (SedentaryMinutes r) (Steps r) (VeryActiveMinutes r), e));
  ("caloriesOut", fun v r => let '(x, e) := Json.store_int v (CaloriesOut r) in
     (mk (ActiveScore r) (ActivityCalories r) (CaloriesBMR r) x (Distances r) (FairlyActiveMinutes r) (LightlyActiveMinutes r) (MarginalCalories r) (SedentaryMinutes r) (Steps r) (VeryActiveMinutes r), e));
  ("distances", fun v r => let '(x, e) := (Json.store_slice "[]fitbit.Distance" Distance.zero Distance.store) v (Distances r) in
     (mk (ActiveScore r) (ActivityCalories r) (CaloriesBMR r) (CaloriesOut r) x (FairlyActiveMinutes r) (LightlyActiveMinutes r) (MarginalCalories r) (SedentaryMinutes r) (Steps r) (VeryActiveMinutes r), e));
  ("fairlyActiveMinutes", fun v r => let '(x, e) := Json.store_int v (FairlyActiveMinutes r) in
     (mk (ActiveScore r) (ActivityCalories r) (CaloriesBMR r) (CaloriesOut r) (Distances r) x (LightlyActiveMinutes r) (MarginalCalories r) (SedentaryMinutes r) (Steps r) (VeryActiveMinutes r), e));
  ("lightlyActiveMinutes", fun v r => let '(x, e) := Json.store_int v (LightlyActiveMinutes r) in
     (mk (ActiveScore r) (ActivityCalories r) (CaloriesBMR r) (CaloriesOut r) (Distances r) (FairlyActiveMinutes r) x (MarginalCalories r) (SedentaryMinutes r) (Steps r) (VeryActiveMinutes r), e));
  ("marginalCalories", fun v r => let '(x, e) := Json.store_int v (MarginalCalories r) in
     (mk (ActiveScore r) (ActivityCalories r) (CaloriesBMR r) (CaloriesOut r) (Distances r) (FairlyActiveMinutes r) (LightlyActiveMinutes r) x (SedentaryMinutes r) (Steps r) (VeryActiveMinutes r), e));
  ("sedentaryMinutes", fun v r => let '(x, e) := Json.store_int v (SedentaryMinutes r) in
     (mk (ActiveScore r) (ActivityCalories r) (CaloriesBMR r) (CaloriesOut r) (Distances r) (FairlyActiveMinutes r) (LightlyActiveMinutes r) (MarginalCalories r) x (Steps r) (VeryActiveMinutes r), e));
  ("steps", fun v r => let '(x, e) := Json.store_int v (Steps r) in
     (mk (ActiveScore r) (ActivityCalories r) (CaloriesBMR r) (CaloriesOut r) (Distances r) (FairlyActiveMinutes r) (LightlyActiveMinutes r) (MarginalCalories r) (SedentaryMinutes r) x (VeryActiveMinutes r), e));
  ("veryActiveMinutes", fun v r => let '(x, e) := Json.store_int v (VeryActiveMinutes r) in
     (mk (ActiveScore r) (ActivityCalories r) (CaloriesBMR r) (CaloriesOut r) (Distances r) (FairlyActiveMinutes r) (LightlyActiveMinutes r) (MarginalCalories r) (SedentaryMinutes r) (Steps r) x, e))
].

Definition store : Json.value -> t -> t * option error :=
  Json.store_struct "fitbit.Summary" fields.

End Summary.

Module ActivitySummary.

Record t : Type := mk {
  Goals : Goals.t;
  Summary : Summary.t
}.

Definition zero : t :=
  mk Goals.zero Summary.zero.

Definition fields : list (string * (Json.value -> t -> t * option error)) := [
  ("goals", fun v r => let '(x, e) := Goals.store v (Goals r) in
     (mk x (Summary r), e));
  ("summary", fun v r => let '(x, e) := Summary.store v (Summary r) in
     (mk (Goals r) x, e))
].

Definition store : Json.value -> t -> t * option error :=
  Json.store_struct "fitbit.ActivitySummary" fields.

End ActivitySummary.

Module User.

Record t : Type := mk {
  StrideLengthRunningType : string;
  Weight : float64;
  Age : Z;
  FullName : string;
  Gender : string;
  GlucoseUnit : string;
  Country : string;
  StrideLengthWalking : float64;
  Avatar : string;
  EncodedID : string;
  StartDayOfWeek : string;
  Avatar150 : string;
  Corporate : bool;
  DateOfBirth : string;
  HeightUnit : string;
  Locale : string;
  MemberSince : string;
  OffsetFromUTCMillis : Z;
  AverageDailySteps : Z;
  Timezone : string;
  StrideLengthRunning : float64;
  WeightUnit : string;
  DistanceUnit : string;
  Height : float64;
  StrideLengthWalkingType : string;
  DisplayName : string
}.

Definition zero : t :=
  mk EmptyString (Float64 "0") 0 EmptyString EmptyString EmptyString EmptyString (Float64 "0") EmptyString EmptyString EmptyString EmptyString false EmptyString EmptyString EmptyString EmptyString 0 0 EmptyString (Float64 "0") EmptyString EmptyString (Float64 "0") EmptyString EmptyString.

Definition fields : list (string * (Json.value -> t -> t * option error)) := [
  ("strideLengthRunningType", fun v r => let '(x, e) := Json.store_string v (StrideLengthRunningType r) in
     (mk x (Weight r) (Age r) (FullName r) (Gender r) (GlucoseUnit r) (Country r) (StrideLengthWalking r) (Avatar r) (EncodedID r) (StartDayOfWeek r) (Avatar150 r) (Corporate r) (DateOfBirth r) (HeightUnit r) (Locale r) (MemberSince r) (OffsetFromUTCMillis r) (AverageDailySteps r) (Timezone r) (StrideLengthRunning r) (WeightUnit r) (DistanceUnit r) (Height r) (StrideLengthWalkingType r) (DisplayName r), e));
  ("weight", fun v r => let '(x, e) := Json.store_float64 v (Weight r) in
     (mk (StrideLengthRunningType r) x (Age r) (FullName r) (Gender r) (GlucoseUnit r) (Country r) (StrideLengthWalking r) (Avatar r) (EncodedID r) (StartDayOfWeek r) (Avatar150 r) (Corporate r) (DateOfBirth r) (HeightUnit r) (Locale r) (MemberSince r) (OffsetFromUTCMillis r) (AverageDailySteps r) (Timezone r) (StrideLengthRunning r) (WeightUnit r) (DistanceUnit r) (Height r) (StrideLengthWalkingType r) (DisplayName r), e));
  ("age", fun v r => let '(x, e) := Json.store_int v (Age r) in
     (mk (StrideLengthRunningType r) (Weight r) x (FullName r) (Gender r) (GlucoseUnit r) (Country r) (StrideLengthWalking r) (Avatar r) (EncodedID r) (StartDayOfWeek r) (Avatar150 r) (Corporate r) (DateOfBirth r) (HeightUnit r) (Locale r) (MemberSince r) (OffsetFromUTCMillis r) (AverageDailySteps r) (Timezone r) (StrideLengthRunning r) (WeightUnit r) (DistanceUnit r) (Height r) (StrideLengthWalkingType r) (DisplayName r), e));
  ("fullName", fun v r => let '(x, e) := Json.store_string v (FullName r) in
     (mk (StrideLengthRunningType r) (Weight r) (Age r) x (Gender r) (GlucoseUnit r) (Country r) (StrideLengthWalking r) (Avatar r) (EncodedID r) (StartDayOfWeek r) (Avatar150 r) (Corporate r) (DateOfBirth r) (HeightUnit r) (Locale r) (MemberSince r) (OffsetFromUTCMillis r) (AverageDailySteps r) (Timezone r) (StrideLengthRunning r) (WeightUnit r) (DistanceUnit r) (Height r) (StrideLengthWalkingType r) (DisplayName r), e));
  ("gender", fun v r => let '(x, e) := Json.store_string v (Gender r) in
     (mk (StrideLengthRunningType r) (Weight r) (Age r) (FullName r) x (GlucoseUnit r) (Country r) (StrideLengthWalking r) (Avatar r) (EncodedID r) (StartDayOfWeek r) (Avatar150 r) (Corporate r) (DateOfBirth r) (HeightUnit r) (Locale r) (MemberSince r) (OffsetFromUTCMillis r) (AverageDailySteps r) (Timezone r) (StrideLengthRunning r) (WeightUnit r) (DistanceUnit r) (Height r) (StrideLengthWalkingType r) (DisplayName r), e));
  ("glucoseUnit", fun v r => let '(x, e) := Json.store_string v (GlucoseUnit r) in
     (mk (StrideLengthRunningType r) (Weight r) (Age r) (FullName r) (Gender r) x (Country r) (StrideLengthWalking r) (Avatar r) (EncodedID r) (StartDayOfWeek r) (Avatar150 r) (Corporate r) (DateOfBirth r) (HeightUnit r) (Locale r) (MemberSince r) (OffsetFromUTCMillis r) (AverageDailySteps r) (Timezone r) (StrideLengthRunning r) (WeightUnit r) (DistanceUnit r) (Height r) (StrideLengthWalkingType r) (DisplayName r), e));
  ("country", fun v r => let '(x, e) := Json.store_string v (Country r) in
     (mk (StrideLengthRunningType r) (Weight r) (Age r) (FullName r) (Gender r) (GlucoseUnit r) x (StrideLengthWalking r) (Avatar r) (EncodedID r) (StartDayOfWeek r) (Avatar150 r) (Corporate r) (DateOfBirth r) (HeightUnit r) (Locale r) (MemberSince r) (OffsetFromUTCMillis r) (AverageDailySteps r) (Timezone r) (StrideLengthRunning r) (WeightUnit r) (DistanceUnit r) (Height r) (StrideLengthWalkingType r) (DisplayName r), e));
  ("strideLengthWalking", fun v r => let '(x, e) := Json.store_float64 v (StrideLengthWalking r) in
     (mk (StrideLengthRunningType r) (Weight r) (Age r) (FullName r) (Gender r) (GlucoseUnit r) (Country r) x (Avatar r) (EncodedID r) (StartDayOfWeek r) (Avatar150 r) (Corporate r) (DateOfBirth r) (HeightUnit r) (Locale r) (MemberSince r) (OffsetFromUTCMillis r) (AverageDailySteps r) (Timezone r) (StrideLengthRunning r) (WeightUnit r) (DistanceUnit r) (Height r) (StrideLengthWalkingType r) (DisplayName r), e));
  ("avatar", fun v r => let '(x, e) := Json.store_string v (Avatar r) in
     (mk (StrideLengthRunningType r) (Weight r) (Age r) (FullName r) (Gender r) (GlucoseUnit r) (Country r) (StrideLengthWalking r) x (EncodedID r) (StartDayOfWeek r) (Avatar150 r) (Corporate r) (DateOfBirth r) (HeightUnit r) (Locale r) (MemberSince r) (OffsetFromUTCMillis r) (AverageDailySteps r) (Timezone r) (StrideLengthRunning r) (WeightUnit r) (DistanceUnit r) (Height r) (StrideLengthWalkingType r) (DisplayName r), e));
  ("encodedId", fun v r => let '(x, e) := Json.store_string v (EncodedID r) in
     (mk (StrideLengthRunningType r) (Weight r) (Age r) (FullName r) (Gender r) (GlucoseUnit r) (Country r) (StrideLengthWalking r) (Avatar r) x (StartDayOfWeek r) (Avatar150 r) (Corporate r) (DateOfBirth r) (HeightUnit r) (Locale r) (MemberSince r) (OffsetFromUTCMillis r) (AverageDailySteps r) (Timezone r) (StrideLengthRunning r) (WeightUnit r) (DistanceUnit r) (Height r) (StrideLengthWalkingType r) (DisplayName r), e));
  ("startDayOfWeek", fun v r => let '(x, e) := Json.store_string v (StartDayOfWeek r) in
     (mk (StrideLengthRunningType r) (Weight r) (Age r) (FullName r) (Gender r) (GlucoseUnit r) (Country r) (StrideLengthWalking r) (Avatar r) (EncodedID r) x (Avatar150 r) (Corporate r) (DateOfBirth r) (HeightUnit r) (Locale r) (MemberSince r) (OffsetFromUTCMillis r) (AverageDailySteps r) (Timezone r) (StrideLengthRunning r) (WeightUnit r) (DistanceUnit r) (Height r) (StrideLengthWalkingType r) (DisplayName r), e));
  ("avatar150", fun v r => let '(x, e) := Json.store_string v (Avatar150 r) in
     (mk (StrideLengthRunningType r) (Weight r) (Age r) (FullName r) (Gender r) (GlucoseUnit r) (Country r) (StrideLengthWalking r) (Avatar r) (EncodedID r) (StartDayOfWeek r) x (Corporate r) (DateOfBirth r) (HeightUnit r) (Locale r) (MemberSince r) (OffsetFromUTCMillis r) (AverageDailySteps r) (Timezone r) (StrideLengthRunning r) (WeightUnit r) (DistanceUnit r) (Height r) (StrideLengthWalkingType r) (DisplayName r), e));
  ("corporate", fun v r => let '(x, e) := Json.store_bool v (Corporate r) in
     (mk (StrideLengthRunningType r) (Weight r) (Age r) (FullName r) (Gender r) (GlucoseUnit r) (Country r) (StrideLengthWalking r) (Avatar r) (EncodedID r) (StartDayOfWeek r) (Avatar150 r) x (DateOfBirth r) (HeightUnit r) (Locale r) (MemberSince r) (OffsetFromUTCMillis r) (AverageDailySteps r) (Timezone r) (StrideLengthRunning r) (WeightUnit r) (DistanceUnit r) (Height r) (StrideLengthWalkingType r) (DisplayName r), e));
  ("dateOfBirth", fun v r => let '(x, e) := Json.store_string v (DateOfBirth r) in
     (mk (StrideLengthRunningType r) (Weight r) (Age r) (FullName r) (Gender r) (GlucoseUnit r) (Country r) (StrideLengthWalking r) (Avatar r) (EncodedID r) (StartDayOfWeek r) (Avatar150 r) (Corporate r) x (HeightUnit r) (Locale r) (MemberSince r) (OffsetFromUTCMillis r) (AverageDailySteps r) (Timezone r) (StrideLengthRunning r) (WeightUnit r) (DistanceUnit r) (Height r) (StrideLengthWalkingType r) (DisplayName r), e));
  ("heightUnit", fun v r => let '(x, e) := Json.store_string v (HeightUnit r) in
     (mk (StrideLengthRunningType r) (Weight r) (Age r) (FullName r) (Gender r) (GlucoseUnit r) (Country r) (StrideLengthWalking r) (Avatar r) (EncodedID r) (StartDayOfWeek r) (Avatar150 r) (Corporate r) (DateOfBirth r) x (Locale r) (MemberSince r) (OffsetFromUTCMillis r) (AverageDailySteps r) (Timezone r) (StrideLengthRunning r) (WeightUnit r) (DistanceUnit r) (Height r) (StrideLengthWalkingType r) (DisplayName r), e));
  ("locale", fun v r => let '(x, e) := Json.store_string v (Locale r) in
     (mk (StrideLengthRunningType r) (Weight r) (Age r) (FullName r) (Gender r) (GlucoseUnit r) (Country r) (StrideLengthWalking r) (Avatar r) (EncodedID r) (StartDayOfWeek r) (Avatar150 r) (Corporate r) (DateOfBirth r) (HeightUnit r) x (MemberSince r) (OffsetFromUTCMillis r) (AverageDailySteps r) (Timezone r) (StrideLengthRunning r) (WeightUnit r) (DistanceUnit r) (Height r) (StrideLengthWalkingType r) (DisplayName r), e));
  ("memberSince", fun v r => let '(x, e) := Json.store_string v (MemberSince r) in
     (mk (StrideLengthRunningType r) (Weight r) (Age r) (FullName r) (Gender r) (GlucoseUnit r) (Country r) (StrideLengthWalking r) (Avatar r) (EncodedID r) (StartDayOfWeek r) (Avatar150 r) (Corporate r) (DateOfBirth r) (HeightUnit r) (Locale r) x (OffsetFromUTCMillis r) (AverageDailySteps r) (Timezone r) (StrideLengthRunning r) (WeightUnit r) (DistanceUnit r) (Height r) (StrideLengthWalkingType r) (DisplayName r), e));
  ("offsetFromUTCMillis", fun v r => let '(x, e) := Json.store_int v (OffsetFromUTCMillis r) in
     (mk (StrideLengthRunningType r) (Weight r) (Age r) (FullName r) (Gender r) (GlucoseUnit r) (Country r) (StrideLengthWalking r) (Avatar r) (EncodedID r) (StartDayOfWeek r) (Avatar150 r) (Corporate r) (DateOfBirth r) (HeightUnit r) (Locale r) (MemberSince r) x (AverageDailySteps r) (Timezone r) (StrideLengthRunning r) (WeightUnit r) (DistanceUnit r) (Height r) (StrideLengthWalkingType r) (DisplayName r), e));
  ("averageDailySteps", fun v r => let '(x, e) := Json.store_int v (AverageDailySteps r) in
     (mk (StrideLengthRunningType r) (Weight r) (Age r) (FullName r) (Gender r) (GlucoseUnit r) (Country r) (StrideLengthWalking r) (Avatar r) (EncodedID r) (StartDayOfWeek r) (Avatar150 r) (Corporate r) (DateOfBirth r) (HeightUnit r) (Locale r) (MemberSince r) (OffsetFromUTCMillis r) x (Timezone r) (StrideLengthRunning r) (WeightUnit r) (DistanceUnit r) (Height r) (StrideLengthWalkingType r) (DisplayName r), e));
  ("timezone", fun v r => let '(x, e) := Json.store_string v (Timezone r) in
     (mk (StrideLengthRunningType r) (Weight r) (Age r) (FullName r) (Gender r) (GlucoseUnit r) (Country r) (StrideLengthWalking r) (Avatar r) (EncodedID r) (StartDayOfWeek r) (Avatar150 r) (Corporate r) (DateOfBirth r) (HeightUnit r) (Locale r) (MemberSince r) (OffsetFromUTCMillis r) (AverageDailySteps r) x (StrideLengthRunning r) (WeightUnit r) (DistanceUnit r) (Height r) (StrideLengthWalkingType r) (DisplayName r), e));
  ("strideLengthRunning", fun v r => let '(x, e) := Json.store_float64 v (StrideLengthRunning r) in
     (mk (StrideLengthRunningType r) (Weight r) (Age r) (FullName r) (Gender r) (GlucoseUnit r) (Country r) (StrideLengthWalking r) (Avatar r) (EncodedID r) (StartDayOfWeek r) (Avatar150 r) (Corporate r) (DateOfBirth r) (HeightUnit r) (Locale r) (MemberSince r) (OffsetFromUTCMillis r) (AverageDailySteps r) (Timezone r) x (WeightUnit r) (DistanceUnit r) (Height r) (StrideLengthWalkingType r) (DisplayName r), e));
  ("weightUnit", fun v r => let '(x, e) := Json.store_string v (WeightUnit r) in
     (mk (StrideLengthRunningType r) (Weight r) (Age r) (FullName r) (Gender r) (GlucoseUnit r) (Country r) (StrideLengthWalking r) (Avatar r) (EncodedID r) (StartDayOfWeek r) (Avatar150 r) (Corporate r) (DateOfBirth r) (HeightUnit r) (Locale r) (MemberSince r) (OffsetFromUTCMillis r) (AverageDailySteps r) (Timezone r) (StrideLengthRunning r) x (DistanceUnit r) (Height r) (StrideLengthWalkingType r) (DisplayName r), e));
  ("distanceUnit", fun v r => let '(x, e) := Json.store_string v (DistanceUnit r) in
     (mk (StrideLengthRunningType r) (Weight r) (Age r) (FullName r) (Gender r) (GlucoseUnit r) (Country r) (StrideLengthWalking r) (Avatar r) (EncodedID r) (StartDayOfWeek r) (Avatar150 r) (Corporate r) (DateOfBirth r) (HeightUnit r) (Locale r) (MemberSince r) (OffsetFromUTCMillis r) (AverageDailySteps r) (Timezone r) (StrideLengthRunning r) (WeightUnit r) x (Height r) (StrideLengthWalkingType r) (DisplayName r), e));
  ("height", fun v r => let '(x, e) := Json.store_float64 v (Height r) in
     (mk (StrideLengthRunningType r) (Weight r) (Age r) (FullName r) (Gender r) (GlucoseUnit r) (Country r) (StrideLengthWalking r) (Avatar r) (EncodedID r) (StartDayOfWeek r) (Avatar150 r) (Corporate r) (DateOfBirth r) (HeightUnit r) (Locale r) (MemberSince r) (OffsetFromUTCMillis r) (AverageDailySteps r) (Timezone r) (StrideLengthRunning r) (WeightUnit r) (DistanceUnit r) x (StrideLengthWalkingType r) (DisplayName r), e));
  ("strideLengthWalkingType", fun v r => let '(x, e) := Json.store_string v (StrideLengthWalkingType r) in
     (mk (StrideLengthRunningType r) (Weight r) (Age r) (FullName r) (Gender r) (GlucoseUnit r) (Country r) (StrideLengthWalking r) (Avatar r) (EncodedID r) (StartDayOfWeek r) (Avatar150 r) (Corporate r) (DateOfBirth r) (HeightUnit r) (Locale r) (MemberSince r) (OffsetFromUTCMillis r) (AverageDailySteps r) (Timezone r) (StrideLengthRunning r) (WeightUnit r) (DistanceUnit r) (Height r) x (DisplayName r), e));
  ("displayName", fun v r => let '(x, e) := Json.store_string v (DisplayName r) in
     (mk (StrideLengthRunningType r) (Weight r) (Age r) (FullName r) (Gender r) (GlucoseUnit r) (Country r) (StrideLengthWalking r) (Avatar r) (EncodedID r) (StartDayOfWeek r) (Avatar150 r) (Corporate r) (DateOfBirth r) (HeightUnit r) (Locale r) (MemberSince r) (OffsetFromUTCMillis r) (AverageDailySteps r) (Timezone r) (StrideLengthRunning r) (WeightUnit r) (DistanceUnit r) (Height r) (StrideLengthWalkingType r) x, e))
].

Definition store : Json.value -> t -> t * option error :=
  Json.store_struct "fitbit.User" fields.

End User.

Module UserProfile.

Record t : Type := mk {
  User : User.t
}.

Definition zero : t :=
  mk User.zero.

Definition fields : list (string * (Json.value -> t -> t * option error)) := [
  ("user", fun v r => let '(x, e) := User.store v (User r) in
     (mk x, e))
].

Definition store : Json.value -> t -> t * option error :=
  Json.store_struct "fitbit.UserProfile" fields.

End UserProfile.

(** ** net/http and net/url *)

(** A response body, an io.ReadCloser over the bytes the server sent. *)
Record ReadCloser : Type := { content : string }.

Module Response.

Record t : Type := mk {
  Status : string;
  StatusCode : Z;
  Header : gmap string (list string);
  Body : ReadCloser
}.

End Response.

(** What the client takes from net/url and fmt as it finds it: the type of
    parsed addresses with [url.Parse] and the method [String] of a URL, and the text
    that the verb [%#v] prints for a response. *)
Class GoLib : Type := {
  url_URL : Type;
  url_Parse : string -> url_URL + error;
  url_String : url_URL -> string;
  fmt_GoSyntax : Response.t -> string
}.

Module Request.

Record t `{GoLib} : Type := mk {
  Method : string;
  URL : url_URL;
  Header : gmap string (list string);
  Body : string
}.

End Request.

(** Header.Add appends to the values of the key (the keys used here are
    in canonical form already). *)
Definition Header_Add (key value : string) (h : gmap string (list string))
  : gmap string (list string) :=
  <[key := (default [] (h !! key) ++ [value])%list]> h.

(** A method is a token: one byte or more, none a control, a separator or
    above 127. *)
Definition isTokenRune (c : ascii) : bool :=
  let n := Json.code c in
  ((48 <=? n) && (n <=? 57)) || ((65 <=? n) && (n <=? 90)) || ((97 <=? n) && (n <=? 122))
  || existsb (Z.eqb n) [33; 35; 36; 37; 38; 39; 42; 43; 45; 46; 94; 95; 96; 124; 126].

Definition validMethod (method : string) : bool :=
  (0 <? String.length method)%nat && forallb isTokenRune (list_ascii_of_string method).

(** http.NewRequest(method, url, body), with [body] the content of the
    buffer: the method is checked, the address parsed, and the request
    starts with no header. *)
Definition http_NewRequest `{GoLib} (method url body : string) : Request.t + error :=
  let method := if String.eqb method "" then "GET" else method in
  if negb (validMethod method) then inr (http_invalidMethod method)
  else
    match url_Parse url with
    | inr err => inr err
    | inl u => inl (Request.mk _ method u ∅ body)
    end.

(** ** Effects *)

Inductive event `{GoLib} : Type :=
  | Sent (req : Request.t)          (* the request went to the network *)
  | Read (body : ReadCloser)        (* the body was read from *)
  | Closed (body : ReadCloser).     (* Close was called on the body *)

(** A computation reads the trace so far and gives its result, or [None]
    when it panics, with the trace extended by what it did. *)
Definition M `{GoLib} (A : Type) : Type := list event -> option A * list event.

#[global] Instance M_ret `{GoLib} : MRet M := fun A x w => (Some x, w).

#[global] Instance M_bind `{GoLib} : MBind M := fun A B f m w =>
  match m w with
  | (Some x, w') => f x w'
  | (None, w') => (None, w')
  end.

Definition emit `{GoLib} (e : event) : M unit := fun w => (Some tt, (w ++ [e])%list).

Definition panic `{GoLib} {A : Type} : M A := fun w => (None, w).

(** [defer f] before [body]: [f] runs when [body] is over, after its
    results are set, and also when it panics. *)
Definition defer `{GoLib} {A : Type} (f : M unit) (body : M A) : M A := fun w =>
  let '(r, w') := body w in
  let '(_, w'') := f w' in
  (r, w'').

Definition Close `{GoLib} (body : ReadCloser) : M unit := emit (Closed body).

Definition same_body (a b : ReadCloser) : bool := String.eqb (content a) (content b).

(** How many times Close was called on [body]. *)
Definition closes `{GoLib} (body : ReadCloser) (w : list event) : nat :=
  length (List.filter (fun e => match e with Closed b => same_body b body | _ => false end) w).

(** How many requests were sent. *)
Definition sends `{GoLib} (w : list event) : nat :=
  length (List.filter (fun e => match e with Sent _ => true | _ => false end) w).

(** How many times [body] was read from. *)
Definition reads `{GoLib} (body : ReadCloser) (w : list event) : nat :=
  length (List.filter (fun e => match e with Read b => same_body b body | _ => false end) w).

(** An *http.Client: what its method Do answers to a request, the
    server's reply or the error of the transport. *)
Record http_Client `{GoLib} : Type := { RoundTrip : Request.t -> Response.t + error }.

Definition http_Client_Do `{GoLib} (hc : http_Client) (req : Request.t)
  : M (Response.t + error) :=
  emit (Sent req);; mret (RoundTrip hc req).

(** The encoder of a payload type, and the decoder of a destination type:
    encoding/json finds them from the type of the value it is given. *)
Class Marshaler (P : Type) : Type := json_Marshal : P -> string + error.

Class Unmarshaler (D : Type) : Type := json_Unmarshal : string -> D -> D * option error.

#[global] Instance ActivitySummary_Unmarshaler : Unmarshaler ActivitySummary.t :=
  Json.Decode ActivitySummary.store.

#[global] Instance UserProfile_Unmarshaler : Unmarshaler UserProfile.t :=
  Json.Decode UserProfile.store.

(** json.NewEncoder(buf).Encode(v): the text of [v] and a newline go to
    the buffer, or nothing does. *)
Definition Encode {P : Type} `{Marshaler P} (v : P) : string + error :=
  match json_Marshal v with
  | inl text => inl (text +:+ String "010" EmptyString)
  | inr err => inr err
  end.

(** json.NewDecoder(body).Decode(v), [v] a pointer to a variable that
    holds [old]: the new content of the variable, and the error. *)
Definition Decode `{GoLib} {D : Type} `{Unmarshaler D} (body : ReadCloser) (old : D)
  : M (D * option error) :=
  emit (Read body);; mret (json_Unmarshal (content body) old).

(** The payload type of a call that passes a nil body. *)
Inductive no_payload : Type := .

#[global] Instance no_payload_Marshaler : Marshaler no_payload :=
  fun v => match v with end.

(** ** The client (fitbit.go, lines 47-178) *)

Definition BASE_URL : string := "https://api.fitbit.com/1".
Definition USER_AGENT : string := "go-fitbit-api:v0.0.1".

(** The methods of *Client are in the module of the struct. *)
Module Client.

Record t `{GoLib} : Type := mk {
  Client : http_Client;
  BaseUrl : url_URL
}.

(** NewRequest: [inr err] is the pair (nil, err), [inl req] is (req, nil).
    A nil [body] is [None]. *)
Definition NewRequest `{GoLib} {P : Type} `{Marshaler P}
    (c : t) (method urlStr : string) (body : option P)
  : M (Request.t + error) :=
  match url_Parse urlStr with
  | inr err => mret (inr err)
  | inl _ =>
      match url_Parse (url_String (BaseUrl c) +:+ urlStr) with
      | inr err => mret (inr err)
      | inl resolvedUrl =>
          let buf :=
            match body with
            | Some v => Encode v
            | None => inl EmptyString
            end in
          match buf with
          | inr err => mret (inr err)
          | inl buf =>
              match http_NewRequest method (url_String resolvedUrl) buf with
              | inr err => mret (inr err)
              | inl req =>
                  mret (inl (Request.mk _ (Request.Method req) (Request.URL req)
                               (Header_Add "User-Agent" USER_AGENT (Request.Header req))
                               (Request.Body req)))
              end
          end
      end
  end.

(** Do: the pair (resp, err) of the source, and the content of the
    variable [respStr] points to when Do returns ([None] for a nil
    [respStr]). *)
Definition Do `{GoLib} {D : Type} `{Unmarshaler D}
    (c : t) (req : Request.t) (respStr : option D)
  : M (option Response.t * option error * option D) :=
  r ← http_Client_Do (Client c) req;
  match r with
  | inr err => mret (None, Some err, respStr)
  | inl resp =>
      defer (Close (Response.Body resp))
        (if (Response.StatusCode resp >? 299) || (Response.StatusCode resp <? 200) then
           mret (None,
                 Some (errors_New ("http request failed, resp: " +:+ fmt_GoSyntax resp)),
                 respStr)
         else
           match respStr with
           | Some old =>
               '(new, err) ← Decode (Response.Body resp) old;
               mret (Some resp, err, Some new)
           | None => mret (Some resp, None, None)
           end)
  end.

(** The accessors give the pair of the record and the error. The local
    variable of the record starts at its zero value and Do is given its
    address; a nil [resp] would make [resp.Body] panic. *)
Definition ActivitySummaryForDay `{GoLib} (c : t) (dayString : string)
  : M (ActivitySummary.t * option error) :=
  let summary := ActivitySummary.zero in
  r ← NewRequest c "GET" ("/user/-/activities/date/" +:+ dayString +:+ ".json")
        (@None no_payload);
  match r with
  | inr err => mret (summary, Some err)
  | inl req =>
      '(resp, err, dest) ← Do c req (Some summary);
      let summary := default summary dest in
      match err with
      | Some err => mret (summary, Some err)
      | None =>
          match resp with
          | Some resp => Close (Response.Body resp);; mret (summary, None)
          | None => panic
          end
      end
  end.

Definition UserProfile `{GoLib} (c : t) : M (UserProfile.t * option error) :=
  let profile := UserProfile.zero in
  r ← NewRequest c "GET" "/user/-/profile.json" (@None no_payload);
  match r with
  | inr err => mret (profile, Some err)
  | inl req =>
      '(resp, err, dest) ← Do c req (Some profile);
      let profile := default profile dest in
      match err with
      | Some err => mret (profile, Some err)
      | None =>
          match resp with
          | Some resp => Close (Response.Body resp);; mret (profile, None)
          | None => panic
          end
      end
  end.

End Client.

(** baseURL, _ = url.Parse(BASE_URL): nil when the parse fails. *)
Definition baseURL `{GoLib} : option url_URL :=
  match url_Parse BASE_URL with
  | inl u => Some u
  | inr _ => None
  end.

(** NewClient, given the *http.Client that the OAuth2 configuration makes
    for the token: the client is bound to [baseURL]. [None] is a client
    whose BaseUrl is nil, which no method can use. *)
Definition NewClient `{GoLib} (oauth2_Client : http_Client) : option Client.t :=
  Client.mk _ oauth2_Client <$> baseURL.

(** ** Stubs for the examples

    A stub of net/url, a stub server and two payload types. The stub of
    net/url takes a URL to be its text. It knows the addresses written
    with letters, digits and the bytes [- . _ ~ /], after [https://] or
    without a scheme, as the client builds them: url.Parse accepts these
    and String gives their text back. It refuses every other text, which
    net/url does not. *)
Module Stub.

Definition plain (c : ascii) : bool :=
  let n := Json.code c in
  ((48 <=? n) && (n <=? 57)) || ((65 <=? n) && (n <=? 90)) || ((97 <=? n) && (n <=? 122))
  || existsb (Z.eqb n) [45; 46; 95; 126; 47].

Definition Parse (rawURL : string) : string + error :=
  let rest :=
    if String.prefix "https://" rawURL
    then String.substring 8 (String.length rawURL - 8) rawURL else rawURL in
  if forallb plain (list_ascii_of_string rest)
     && negb (String.eqb rest EmptyString && String.prefix "https://" rawURL)
     && negb (String.eqb rawURL "//")
  then inl rawURL
  else inr (url_Error "parse" rawURL (errorString "not an address the stub knows")).

(** The text for a response: its status only. *)
Definition GoSyntax (resp : Response.t) : string :=
  "&http.Response{Status:" +:+ String dquote (Response.Status resp)
    +:+ String dquote ", ...}".

#[global] Instance lib : GoLib := {
  url_URL := string;
  url_Parse := Parse;
  url_String := fun u => u;
  fmt_GoSyntax := GoSyntax
}.

(** A server that answers every request with one status and one body. *)
Definition server (status : string) (code : Z) (body : string) : http_Client :=
  {| RoundTrip := fun _ =>
       inl (Response.mk status code ∅ {| content := body |}) |}.

(** A transport that reaches no server. *)
Definition unreachable : http_Client :=
  {| RoundTrip := fun req =>
       inr (url_Error "Get" (Request.URL req) (errorString "dial tcp: connection refused")) |}.

Definition client (hc : http_Client) : Client.t := Client.mk _ hc BASE_URL.

(** Two payloads: a boolean, which has a JSON text, and a channel, which
    has none. *)
Inductive payload : Type := Flag (b : bool) | Chan.

#[global] Instance payload_Marshaler : Marshaler payload := fun v =>
  match v with
  | Flag true => inl "true"
  | Flag false => inl "false"
  | Chan => inr (json_UnsupportedTypeError "chan int")
  end.

(** The request of the profile, as [NewRequest] builds it. *)
Definition request : Request.t :=
  Request.mk _ "GET" "https://api.fitbit.com/1/user/-/profile.json"
    (Header_Add "User-Agent" USER_AGENT ∅) EmptyString.

End Stub.

(** A reply whose goals are right and whose summary has a string where
    a number goes. *)
Definition half_right : string := js "{'goals':{'steps':10000},'summary':{'steps':'many'}}".

(** The body of the end-to-end example of the activity summary. *)
Definition golden : string := js "{'goals':{'steps':10000},'summary':{'steps':8000}}".

(** The errors of the builder, which the specification calls
    MalformedInput: the path or the address does not parse, the payload
    has no JSON text, or net/http refuses the method or the address. *)
Inductive MalformedInput `{GoLib} {P : Type} `{Marshaler P}
    (c : Client.t) (method urlStr : string) (body : option P) : error -> Prop :=
  | bad_path err :
      url_Parse urlStr = inr err ->
      MalformedInput c method urlStr body err
  | bad_address err :
      url_Parse (url_String (Client.BaseUrl c) +:+ urlStr) = inr err ->
      MalformedInput c method urlStr body err
  | bad_payload v err :
      body = Some v -> Encode v = inr err ->
      MalformedInput c method urlStr body err
  | bad_request u buf err :
      url_Parse (url_String (Client.BaseUrl c) +:+ urlStr) = inl u ->
      http_NewRequest method (url_String u) buf = inr err ->
      MalformedInput c method urlStr body err.

(** The status codes inside and outside [200, 299]. *)
Definition ok_status (resp : Response.t) : Prop :=
  200 <= Response.StatusCode resp <= 299.

Definition bad_status (resp : Response.t) : Prop :=
  Response.StatusCode resp < 200 \/ 299 < Response.StatusCode resp.

(** ** The factory (fitbit.go, lines 61-84)

    golang.org/x/oauth2 as the client finds it: tokens, configurations,
    and the *http.Client that a configuration makes for a token (the
    context given is always context.Background()). *)
Class OAuth2 `{GoLib} : Type := {
  oauth2_Token : Type;
  oauth2_Config : Type;
  oauth2_Config_Client : oauth2_Config -> oauth2_Token -> http_Client
}.

(** type tokenSource oauth2.Token, and its method Token: the conversion
    of the pointer, and a nil error. *)
Definition tokenSource `{OAuth2} : Type := oauth2_Token.

Definition tokenSource_Token `{OAuth2} (t : tokenSource) : oauth2_Token * option error :=
  (t, None).

Module ConfigSource.

Record t `{OAuth2} : Type := mk { cfg : oauth2_Config }.

(** NewClient, the method of *ConfigSource. *)
Definition NewClient `{OAuth2} (c : t) (tok : oauth2_Token) : option Client.t :=
  NewClient (oauth2_Config_Client (cfg c) tok).

End ConfigSource.

Definition NewConfigSource `{OAuth2} (cfg : oauth2_Config) : ConfigSource.t :=
  ConfigSource.mk _ _ cfg.

(** A stub of oauth2: a configuration is the server the client will
    reach, a token is its text. *)
Module StubOAuth2.

#[global] Instance lib : OAuth2 := {
  oauth2_Token := string;
  oauth2_Config := http_Client;
  oauth2_Config_Client := fun cfg _ => cfg
}.

End StubOAuth2.

(** ** Replies of the server, for any name and any counts

    A byte of a name that a JSON string holds as it is written: an ASCII
    byte that is no control, no quote and no backslash. *)
Definition printable (c : ascii) : bool :=
  negb (Ascii.eqb c dquote) && negb (Ascii.eqb c "\") && (32 <=? Json.code c)
  && (Json.code c <? 128).

(** The reply [{"user":{"fullName":"<name>"}}]. *)
Definition profile_reply (name : string) : string :=
  js "{'user':{'fullName':'" +:+ name +:+ js "'}}".

(** The decimal text of a natural number: [0], or digits that do not
    start with [0]. *)
Definition integer_literal (lit : string) : bool :=
  match lit with
  | String c r =>
      if Ascii.eqb c "0" then String.eqb r EmptyString
      else Json.isDigit c && forallb Json.isDigit (list_ascii_of_string r)
  | EmptyString => false
  end.

(** The reply [{"goals":{"steps":<goal>},"summary":{"steps":<steps>}}]. *)
Definition summary_reply (goal steps : string) : string :=
  js "{'goals':{'steps':" +:+ goal +:+ js "},'summary':{'steps':" +:+ steps +:+ "}}".

(** * Properties *)

(** ** The scanner has fuel enough *)

Section Scanner.

Import Json.

Local Open Scope nat_scope.

Implicit Types (s r text : string) (c : ascii).

Lemma skip_space_length s : String.length (skip_space s) <= String.length s.
Proof. induction s as [| c s IH]; simpl; [lia |]. destruct (isSpace c); simpl; lia. Qed.

Lemma next_length s c r : next s = Some (c, r) -> String.length r < String.length s.
Proof.
  unfold next. pose proof (skip_space_length s) as Hlen.
  destruct (skip_space s) as [| c' r']; [discriminate |].
  intros [= _ <-]. simpl in Hlen. lia.
Qed.

Lemma digits_length s d r : digits s = (d, r) -> String.length r <= String.length s.
Proof.
  revert d r. induction s as [| c s IH]; simpl; intros d r.
  - intros [= _ <-]. simpl. lia.
  - destruct (isDigit c).
    + destruct (digits s) as [d' r'] eqn:Hd. intros [= _ <-].
      specialize (IH _ _ eq_refl). lia.
    + intros [= _ <-]. simpl. lia.
Qed.

Lemma stop_inl {A : Type} s (x : A * string) : stop s <> inl x.
Proof. by destruct s. Qed.

Lemma scan_number_length s lit r :
  scan_number s = inl (lit, r) -> String.length r <= String.length s.
Proof.
  unfold scan_number.
  destruct (scan_minus s) as [sign r0] eqn:Hminus.
  assert (String.length r0 <= String.length s) as H0.
  { unfold scan_minus in Hminus. destruct s as [| c s']; [by injection Hminus as _ <- |].
    destruct (Ascii.eqb c "-"); injection Hminus as _ <-; simpl; lia. }
  destruct (scan_int r0) as [[i r1] |] eqn:Hint; [| discriminate].
  assert (String.length r1 <= String.length r0) as H1.
  { unfold scan_int in Hint. destruct r0 as [| c r0']; [discriminate |].
    destruct (Ascii.eqb c "0"); [injection Hint as _ <-; simpl; lia |].
    destruct (isDigit c); [| discriminate].
    destruct (digits r0') as [d r'] eqn:Hd. injection Hint as _ <-.
    apply digits_length in Hd. simpl. lia. }
  destruct (scan_frac r1) as [[f r2] |] eqn:Hfrac; [| discriminate].
  assert (String.length r2 <= String.length r1) as H2.
  { unfold scan_frac in Hfrac. destruct r1 as [| c r1']; [by injection Hfrac as _ <- |].
    destruct (Ascii.eqb c "."); [| injection Hfrac as _ <-; simpl; lia].
    destruct (digits r1') as [d r'] eqn:Hd.
    destruct (String.eqb d ""); [by apply stop_inl in Hfrac |].
    injection Hfrac as _ <-. apply digits_length in Hd. simpl. lia. }
  destruct (scan_exp r2) as [[x r3] |] eqn:Hexp; [| discriminate].
  assert (String.length r3 <= String.length r2) as H3.
  { unfold scan_exp in Hexp. destruct r2 as [| c r2']; [by injection Hexp as _ <- |].
    destruct (_ || _); [| injection Hexp as _ <-; simpl; lia].
    destruct (scan_sign r2') as [sg r'] eqn:Hsign.
    assert (String.length r' <= String.length r2') as Hs.
    { unfold scan_sign in Hsign. destruct r2' as [| c' r2'']; [by injection Hsign as _ <- |].
      destruct (_ || _); injection Hsign as _ <-; simpl; lia. }
    destruct (digits r') as [d r''] eqn:Hd.
    destruct (String.eqb d ""); [by apply stop_inl in Hexp |].
    injection Hexp as _ <-. apply digits_length in Hd. simpl. lia. }
  intros [= _ <-]. lia.
Qed.

Lemma scan_name_length name s r :
  scan_name name s = inl (tt, r) -> String.length r <= String.length s.
Proof.
  revert s. induction name as [| c name IH]; simpl; intros s.
  - by intros [= <-].
  - destruct s as [| c' s']; [discriminate |].
    destruct (Ascii.eqb c c'); [| discriminate].
    intros Hs. apply IH in Hs. simpl. lia.
Qed.

Lemma prepend_inl c (x : scanned string) text r :
  prepend c x = inl (text, r) -> exists text', x = inl (text', r).
Proof. destruct x as [[text' r'] |]; [| discriminate]. intros [= _ <-]. by eexists. Qed.

Lemma scan_literal_length state s text r :
  scan_literal state s = inl (text, r) -> String.length r < String.length s.
Proof.
  revert state text. induction s as [| c s IH]; simpl; intros state text; [discriminate |].
  assert (forall st x, prepend c (scan_literal st s) = inl (x, r) ->
                       String.length r < S (String.length s)) as Hstep.
  { intros st x Hx. apply prepend_inl in Hx as [text' Hx]. apply IH in Hx. lia. }
  destruct state as [| | n].
  - destruct (Ascii.eqb c dquote); [intros [= _ <-]; lia |].
    destruct (Ascii.eqb c "\"); [by apply Hstep |].
    destruct (code c <? 32)%Z; [discriminate |]. by apply Hstep.
  - destruct (Ascii.eqb c "u"); [by apply Hstep |].
    destruct (unescape c); [by apply Hstep | discriminate].
  - destruct (hexval c); [by apply Hstep | discriminate].
Qed.

Lemma scan_string_length s x r :
  scan_string s = inl (x, r) -> String.length r < String.length s.
Proof.
  unfold scan_string.
  destruct (scan_literal InString s) as [[text r'] |] eqn:Hlit; [| discriminate].
  intros [= _ <-]. by apply scan_literal_length in Hlit.
Qed.

(** What a step leaves unread is no longer than what it was given,
    when that holds of the scans it calls. *)
Lemma value_step_length members elements s x r :
  (forall s acc x r, members s acc = inl (x, r) -> String.length r <= String.length s) ->
  (forall s acc x r, elements s acc = inl (x, r) -> String.length r <= String.length s) ->
  value_step members elements s = inl (x, r) -> String.length r <= String.length s.
Proof.
  intros Hm He. unfold value_step.
  destruct (next s) as [[c r0] |] eqn:Hn; [| discriminate].
  apply next_length in Hn.
  destruct (Ascii.eqb c "{").
  { destruct (next r0) as [[c' r'] |] eqn:Hn'; [| discriminate].
    apply next_length in Hn'.
    destruct (Ascii.eqb c' "}"); [intros [= _ <-]; lia |].
    intros Hr. apply Hm in Hr. lia. }
  destruct (Ascii.eqb c "[").
  { destruct (next r0) as [[c' r'] |] eqn:Hn'; [| discriminate].
    apply next_length in Hn'.
    destruct (Ascii.eqb c' "]"); [intros [= _ <-]; lia |].
    intros Hr. apply He in Hr. lia. }
  destruct (Ascii.eqb c dquote).
  { destruct (scan_string r0) as [[y r'] |] eqn:Hs; [| discriminate].
    apply scan_string_length in Hs. intros [= _ <-]. lia. }
  destruct (Ascii.eqb c "t").
  { destruct (scan_name "rue" r0) as [[[] r'] |] eqn:Hs; [| discriminate].
    apply scan_name_length in Hs. intros [= _ <-]. lia. }
  destruct (Ascii.eqb c "f").
  { destruct (scan_name "alse" r0) as [[[] r'] |] eqn:Hs; [| discriminate].
    apply scan_name_length in Hs. intros [= _ <-]. lia. }
  destruct (Ascii.eqb c "n").
  { destruct (scan_name "ull" r0) as [[[] r'] |] eqn:Hs; [| discriminate].
    apply scan_name_length in Hs. intros [= _ <-]. lia. }
  destruct (scan_number (String c r0)) as [[lit r'] |] eqn:Hs; [| discriminate].
  apply scan_number_length in Hs. intros [= _ <-]. simpl in Hs. lia.
Qed.

Lemma members_step_length value_ members s acc x r :
  (forall s x r, value_ s = inl (x, r) -> String.length r <= String.length s) ->
  (forall s acc x r, members s acc = inl (x, r) -> String.length r <= String.length s) ->
  members_step value_ members s acc = inl (x, r) -> String.length r <= String.length s.
Proof.
  intros Hv Hm. unfold members_step.
  destruct (next s) as [[c r0] |] eqn:Hn; [| discriminate].
  apply next_length in Hn.
  destruct (Ascii.eqb c dquote); [| discriminate].
  destruct (scan_string r0) as [[key r1] |] eqn:Hs; [| discriminate].
  apply scan_string_length in Hs.
  destruct (next r1) as [[c1 r2] |] eqn:Hn1; [| discriminate].
  apply next_length in Hn1.
  destruct (Ascii.eqb c1 ":"); [| discriminate].
  destruct (value_ r2) as [[v r3] |] eqn:Hval; [| discriminate].
  apply Hv in Hval.
  destruct (next r3) as [[c3 r4] |] eqn:Hn3; [| discriminate].
  apply next_length in Hn3.
  destruct (Ascii.eqb c3 ","); [intros Hr; apply Hm in Hr; lia |].
  destruct (Ascii.eqb c3 "}"); [| discriminate].
  intros [= _ <-]. lia.
Qed.

Lemma elements_step_length value_ elements s acc x r :
  (forall s x r, value_ s = inl (x, r) -> String.length r <= String.length s) ->
  (forall s acc x r, elements s acc = inl (x, r) -> String.length r <= String.length s) ->
  elements_step value_ elements s acc = inl (x, r) -> String.length r <= String.length s.
Proof.
  intros Hv He. unfold elements_step.
  destruct (value_ s) as [[v r1] |] eqn:Hval; [| discriminate].
  apply Hv in Hval.
  destruct (next r1) as [[c r2] |] eqn:Hn; [| discriminate].
  apply next_length in Hn.
  destruct (Ascii.eqb c ","); [intros Hr; apply He in Hr; lia |].
  destruct (Ascii.eqb c "]"); [| discriminate].
  intros [= _ <-]. lia.
Qed.

Lemma scan_length fuel :
  (forall s x r, scan_value fuel s = inl (x, r) -> String.length r <= String.length s)
  /\ (forall s acc x r,
        scan_members fuel s acc = inl (x, r) -> String.length r <= String.length s)
  /\ (forall s acc x r,
        scan_elements fuel s acc = inl (x, r) -> String.length r <= String.length s).
Proof.
  induction fuel as [| fuel (Hv & Hm & He)]; [by repeat split |].
  split; [| split]; intros s.
  - intros x r.
    change (scan_value (S fuel) s)
      with (value_step (scan_members fuel) (scan_elements fuel) s).
    apply value_step_length; assumption.
  - intros acc x r.
    change (scan_members (S fuel) s acc)
      with (members_step (scan_value fuel) (scan_members fuel) s acc).
    apply members_step_length; assumption.
  - intros acc x r.
    change (scan_elements (S fuel) s acc)
      with (elements_step (scan_value fuel) (scan_elements fuel) s acc).
    apply elements_step_length; assumption.
Qed.

(** A step gives the same result with scans that agree on shorter texts. *)
Lemma value_step_ext members members' elements elements' s :
  (forall r acc, String.length r < String.length s -> members r acc = members' r acc) ->
  (forall r acc, String.length r < String.length s -> elements r acc = elements' r acc) ->
  value_step members elements s = value_step members' elements' s.
Proof.
  intros Hm He. unfold value_step.
  destruct (next s) as [[c r0] |] eqn:Hn; [| reflexivity].
  apply next_length in Hn.
  destruct (Ascii.eqb c "{").
  { destruct (next r0) as [[c' r'] |]; [| reflexivity].
    destruct (Ascii.eqb c' "}"); [reflexivity | by apply Hm]. }
  destruct (Ascii.eqb c "[").
  { destruct (next r0) as [[c' r'] |]; [| reflexivity].
    destruct (Ascii.eqb c' "]"); [reflexivity | by apply He]. }
  reflexivity.
Qed.

Lemma members_step_ext value_ value' members members' s acc :
  (forall r x r', value_ r = inl (x, r') -> String.length r' <= String.length r) ->
  (forall r, String.length r < String.length s -> value_ r = value' r) ->
  (forall r acc, String.length r < String.length s -> members r acc = members' r acc) ->
  members_step value_ members s acc = members_step value' members' s acc.
Proof.
  intros Hlen Hv Hm. unfold members_step.
  destruct (next s) as [[c r0] |] eqn:Hn; [| reflexivity].
  apply next_length in Hn.
  destruct (Ascii.eqb c dquote); [| reflexivity].
  destruct (scan_string r0) as [[key r1] |] eqn:Hs; [| reflexivity].
  apply scan_string_length in Hs.
  destruct (next r1) as [[c1 r2] |] eqn:Hn1; [| reflexivity].
  apply next_length in Hn1.
  destruct (Ascii.eqb c1 ":"); [| reflexivity].
  rewrite <- (Hv r2) by lia.
  destruct (value_ r2) as [[v r3] |] eqn:Hval; [| reflexivity].
  apply Hlen in Hval.
  destruct (next r3) as [[c3 r4] |] eqn:Hn3; [| reflexivity].
  apply next_length in Hn3.
  destruct (Ascii.eqb c3 ","); [apply Hm; lia | reflexivity].
Qed.

Lemma elements_step_ext value_ value' elements elements' s acc :
  (forall r x r', value_ r = inl (x, r') -> String.length r' <= String.length r) ->
  value_ s = value' s ->
  (forall r acc, String.length r < String.length s -> elements r acc = elements' r acc) ->
  elements_step value_ elements s acc = elements_step value' elements' s acc.
Proof.
  intros Hlen Hv He. unfold elements_step. rewrite <- Hv.
  destruct (value_ s) as [[v r1] |] eqn:Hval; [| reflexivity].
  apply Hlen in Hval.
  destruct (next r1) as [[c r2] |] eqn:Hn; [| reflexivity].
  apply next_length in Hn.
  destruct (Ascii.eqb c ","); [apply He; lia | reflexivity].
Qed.

(** With two units of fuel for each byte, one unit more changes nothing. *)
Lemma scan_stable fuel :
  (forall s, 2 * String.length s < fuel -> scan_value fuel s = scan_value (S fuel) s)
  /\ (forall s acc, 2 * String.length s + 1 < fuel ->
        scan_members fuel s acc = scan_members (S fuel) s acc)
  /\ (forall s acc, 2 * String.length s + 1 < fuel ->
        scan_elements fuel s acc = scan_elements (S fuel) s acc).
Proof.
  induction fuel as [| fuel (Hv & Hm & He)]; [repeat split; intros; lia |].
  destruct (scan_length fuel) as (Hlen & _ & _).
  split; [| split]; intros s.
  - intros Hs.
    change (value_step (scan_members fuel) (scan_elements fuel) s
            = value_step (scan_members (S fuel)) (scan_elements (S fuel)) s).
    apply value_step_ext; intros r acc Hr; [apply Hm | apply He]; lia.
  - intros acc Hs.
    change (members_step (scan_value fuel) (scan_members fuel) s acc
            = members_step (scan_value (S fuel)) (scan_members (S fuel)) s acc).
    apply members_step_ext; [exact Hlen | |]; intros r; [| intros acc'];
      intros Hr; [apply Hv | apply Hm]; lia.
  - intros acc Hs.
    change (elements_step (scan_value fuel) (scan_elements fuel) s acc
            = elements_step (scan_value (S fuel)) (scan_elements (S fuel)) s acc).
    apply elements_step_ext; [exact Hlen | apply Hv; lia |].
    intros r acc' Hr. apply He. lia.
Qed.

(** The fuel that [readValue] gives is enough: any larger fuel gives the
    same value, or the same error. *)
Lemma scan_value_fuel data fuel :
  2 * String.length data + 2 <= fuel ->
  scan_value fuel data = scan_value (2 * String.length data + 2) data.
Proof.
  induction 1 as [| fuel Hle IH]; [reflexivity |].
  rewrite <- IH. symmetry. apply scan_stable. lia.
Qed.

End Scanner.

Section Executor.

Context `{GoLib} {D : Type} `{Unmarshaler D}.
Implicit Types (c : Client.t) (req : Request.t) (respStr : option D) (w : list event).

Lemma status_test_bad (resp : Response.t) :
  bad_status resp ->
  (Response.StatusCode resp >? 299) || (Response.StatusCode resp <? 200) = true.
Proof. intros [Hlo | Hhi]; apply orb_true_iff; [right | left]; lia. Qed.

Lemma status_test_ok (resp : Response.t) :
  ok_status resp ->
  (Response.StatusCode resp >? 299) || (Response.StatusCode resp <? 200) = false.
Proof. intros [Hlo Hhi]. apply orb_false_iff. split; lia. Qed.

(** The four ways through [Do], with the trace of each. *)
Lemma Do_paths c req respStr w :
  Client.Do c req respStr w =
  match RoundTrip (Client.Client c) req with
  | inr err => (Some (None, Some err, respStr), w ++ [Sent req])
  | inl resp =>
      let body := Response.Body resp in
      if (Response.StatusCode resp >? 299) || (Response.StatusCode resp <? 200) then
        (Some (None,
               Some (errors_New ("http request failed, resp: " +:+ fmt_GoSyntax resp)),
               respStr),
         w ++ [Sent req; Closed body])
      else
        match respStr with
        | Some old =>
            (Some (Some resp, (json_Unmarshal (content body) old).2,
                   Some (json_Unmarshal (content body) old).1),
             w ++ [Sent req; Read body; Closed body])
        | None => (Some (Some resp, None, None), w ++ [Sent req; Closed body])
        end
  end%list.
Proof.
  unfold Client.Do, http_Client_Do, defer, Close, Decode, emit.
  unfold mbind, M_bind, mret, M_ret. simpl.
  destruct (RoundTrip (Client.Client c) req) as [resp | err]; [| reflexivity].
  destruct ((Response.StatusCode resp >? 299) || (Response.StatusCode resp <? 200)).
  - simpl. by rewrite <- app_assoc.
  - destruct respStr as [old |]; simpl.
    + destruct (json_Unmarshal (content (Response.Body resp)) old) as [new err].
      simpl. by rewrite <- !app_assoc.
    + by rewrite <- app_assoc.
Qed.

Lemma closes_app (body : ReadCloser) (w1 w2 : list event) :
  closes body (w1 ++ w2) = (closes body w1 + closes body w2)%nat.
Proof. unfold closes. by rewrite List.filter_app, length_app. Qed.

Lemma reads_app (body : ReadCloser) (w1 w2 : list event) :
  reads body (w1 ++ w2) = (reads body w1 + reads body w2)%nat.
Proof. unfold reads. by rewrite List.filter_app, length_app. Qed.

Lemma sends_app (w1 w2 : list event) :
  sends (w1 ++ w2) = (sends w1 + sends w2)%nat.
Proof. unfold sends. by rewrite List.filter_app, length_app. Qed.

Lemma same_body_refl (body : ReadCloser) : same_body body body = true.
Proof. apply String.eqb_refl. Qed.

(** [Do] never panics, sends one request, and never gives a nil response
    with a nil error. *)
Lemma Do_returns c req respStr w :
  exists resp err dest w',
    Client.Do c req respStr w = (Some (resp, err, dest), w')
    /\ sends w' = S (sends w)
    /\ (resp = None -> err <> None).
Proof.
  rewrite Do_paths.
  destruct (RoundTrip (Client.Client c) req) as [resp | err]; simpl.
  - destruct ((Response.StatusCode resp >? 299) || (Response.StatusCode resp <? 200));
      [| destruct respStr];
      eexists _, _, _, _; (split; [reflexivity |]);
      rewrite sends_app; unfold sends; simpl; (split; [lia | congruence]).
  - eexists _, _, _, _. split; [reflexivity |].
    rewrite sends_app. unfold sends. simpl. split; [lia | congruence].
Qed.

(** Wherever a response was received, [Do] has closed its body once when
    it returns. *)
Lemma Do_closes_once c req respStr w (resp : Response.t) :
  RoundTrip (Client.Client c) req = inl resp ->
  closes (Response.Body resp) (Client.Do c req respStr w).2
  = S (closes (Response.Body resp) w).
Proof.
  intros Hresp. rewrite Do_paths, Hresp. simpl.
  destruct ((Response.StatusCode resp >? 299) || (Response.StatusCode resp <? 200));
    [| destruct respStr]; simpl; rewrite closes_app; unfold closes at 2; simpl;
    rewrite same_body_refl; simpl; lia.
Qed.


(** C4. When the response has a status code outside [200, 299], whatever
    the destination holds, [Do] returns an error and the destination holds
    the same value afterwards: the body is not read, nothing is decoded. *)
Theorem Do_failed_keeps_destination c req (old : D) w (resp : Response.t) :
  RoundTrip (Client.Client c) req = inl resp ->
  bad_status resp ->
  exists err w',
    Client.Do c req (Some old) w = (Some (None, Some err, Some old), w')
    /\ reads (Response.Body resp) w' = reads (Response.Body resp) w.
Proof.
  intros Hresp Hbad.
  rewrite Do_paths, Hresp. simpl. rewrite (status_test_bad _ Hbad).
  eexists _, _. split; [reflexivity |].
  rewrite reads_app. unfold reads at 2. simpl. lia.
Qed.


(** C10. When the status code is in [200, 299] and the destination is
    nil, [Do] returns the response and a nil error, and the body is closed
    without having been read from. *)
Theorem Do_nil_destination c req w (resp : Response.t) :
  RoundTrip (Client.Client c) req = inl resp ->
  ok_status resp ->
  Client.Do c req (@None D) w
  = (Some (Some resp, None, None),
     (w ++ [Sent req; Closed (Response.Body resp)])%list)
  /\ reads (Response.Body resp) (Client.Do c req (@None D) w).2
     = reads (Response.Body resp) w.
Proof.
  intros Hresp Hok.
  rewrite Do_paths, Hresp. simpl. rewrite (status_test_ok _ Hok).
  split; [reflexivity |]. simpl.
  rewrite reads_app. unfold reads at 2. simpl. lia.
Qed.

End Executor.


Lemma Do_failed_keeps_destination_witness :
  exists err w',
    Client.Do (Stub.client (Stub.server "500 Internal Server Error" 500 golden))
      Stub.request (Some ActivitySummary.zero) []
    = (Some (None, Some err, Some ActivitySummary.zero), w')
    /\ reads {| content := golden |} w' = reads {| content := golden |} [].
Proof.
  apply (Do_failed_keeps_destination
           (Stub.client (Stub.server "500 Internal Server Error" 500 golden))
           Stub.request ActivitySummary.zero []
           (Response.mk "500 Internal Server Error" 500 ∅ {| content := golden |})).
  - reflexivity.
  - right. simpl. lia.
Defined.


Lemma Do_nil_destination_witness :
  Client.Do (Stub.client (Stub.server "204 No Content" 204 EmptyString))
    Stub.request (@None UserProfile.t) []
  = (Some (Some (Response.mk "204 No Content" 204 ∅ {| content := EmptyString |}),
           None, None),
     [Sent Stub.request; Closed {| content := EmptyString |}])
  /\ reads {| content := EmptyString |}
       (Client.Do (Stub.client (Stub.server "204 No Content" 204 EmptyString))
          Stub.request (@None UserProfile.t) []).2
     = 0%nat.
Proof.
  apply (Do_nil_destination
           (Stub.client (Stub.server "204 No Content" 204 EmptyString))
           Stub.request []
           (Response.mk "204 No Content" 204 ∅ {| content := EmptyString |})).
  - reflexivity.
  - unfold ok_status. simpl. lia.
Defined.

(** The stub client is the one [NewClient] builds. *)
Lemma Stub_NewClient (hc : http_Client) : NewClient hc = Some (Stub.client hc).
Proof. reflexivity. Qed.

Section Builder.

Context `{GoLib} {P : Type} `{Marshaler P}.
Implicit Types (c : Client.t) (body : option P) (w : list event).

(** The builder returns, and adds nothing to the trace: it sends nothing. *)
Lemma NewRequest_pure c method urlStr body :
  exists r, forall w, Client.NewRequest c method urlStr body w = (Some r, w).
Proof.
  unfold Client.NewRequest.
  destruct (url_Parse urlStr); [| by eexists].
  destruct (url_Parse _); [| by eexists].
  destruct (match body with Some v => Encode v | None => inl EmptyString end);
    [| by eexists].
  destruct (http_NewRequest _ _ _); by eexists.
Qed.

(** Every error of the builder is a MalformedInput. *)
Lemma NewRequest_errors c method urlStr body w err w' :
  Client.NewRequest c method urlStr body w = (Some (inr err), w') ->
  MalformedInput c method urlStr body err.
Proof.
  unfold Client.NewRequest.
  destruct (url_Parse urlStr) as [p |] eqn:Hpath;
    [| intros [= <- _]; by apply bad_path].
  destruct (url_Parse (_ +:+ _)) as [u |] eqn:Haddr;
    [| intros [= <- _]; by apply bad_address].
  destruct body as [v |].
  - destruct (Encode v) as [buf |] eqn:Henc;
      [| intros [= <- _]; by eapply bad_payload].
    destruct (http_NewRequest _ _ _) eqn:Hreq; intros [= <- _].
    by eapply bad_request.
  - destruct (http_NewRequest _ _ _) eqn:Hreq; intros [= <- _].
    by eapply bad_request.
Qed.

(** net/http refuses a method that is no token, whatever the address. *)
Lemma NewRequest_invalid_method c method urlStr body w req w' :
  method <> EmptyString -> validMethod method = false ->
  Client.NewRequest c method urlStr body w <> (Some (inl req), w').
Proof.
  intros Hne Hbad. unfold Client.NewRequest, http_NewRequest.
  destruct (String.eqb method "") eqn:Hempty;
    [apply String.eqb_eq in Hempty; contradiction |].
  rewrite Hbad. simpl.
  destruct (url_Parse urlStr); [| discriminate].
  destruct (url_Parse _); [| discriminate].
  destruct (match body with Some v => Encode v | None => inl EmptyString end);
    discriminate.
Qed.

(** C6. For a payload that has no JSON text, the builder returns
    (nil, err) with [err] a MalformedInput, the encoder's own error once
    the path and the address have parsed, and the trace is as it was: no
    request is sent. *)
Theorem NewRequest_unencodable c method urlStr (v : P) (err : error) w :
  json_Marshal v = inr err ->
  exists e,
    Client.NewRequest c method urlStr (Some v) w = (Some (inr e), w)
    /\ MalformedInput c method urlStr (Some v) e
    /\ (forall p u, url_Parse urlStr = inl p ->
        url_Parse (url_String (Client.BaseUrl c) +:+ urlStr) = inl u -> e = err)
    /\ sends (Client.NewRequest c method urlStr (Some v) w).2 = sends w.
Proof.
  intros Hv.
  assert (Henc : Encode v = inr err) by (unfold Encode; by rewrite Hv).
  unfold Client.NewRequest.
  destruct (url_Parse urlStr) eqn:Hpath.
  - destruct (url_Parse (_ +:+ _)) eqn:Haddr.
    + rewrite Henc. exists err.
      split; [reflexivity |]. split; [by eapply bad_payload |]. by split.
    + eexists.
      split; [reflexivity |]. split; [by apply bad_address |].
      split; [| reflexivity]. intros ? ? _ [=].
  - eexists.
    split; [reflexivity |]. split; [by apply bad_path |].
    split; [| reflexivity]. intros ? ? [=].
Qed.

(** C3, amended. With a nil body, a method that is empty or a token, a
    path that parses, and an address (the text of the base URL followed by
    the path as it is) that parses to a URL printed back as that same text,
    the builder succeeds: the request has that address, the method (GET
    for the empty one), an empty body and the User-Agent header. *)
Theorem NewRequest_builds c (method urlStr : string) w (u : url_URL) :
  method = EmptyString \/ validMethod method = true ->
  (exists p, url_Parse urlStr = inl p) ->
  url_Parse (url_String (Client.BaseUrl c) +:+ urlStr) = inl u ->
  url_String u = url_String (Client.BaseUrl c) +:+ urlStr ->
  exists req,
    Client.NewRequest c method urlStr (@None P) w = (Some (inl req), w)
    /\ url_String (Request.URL req) = url_String (Client.BaseUrl c) +:+ urlStr
    /\ Request.Header req !! "User-Agent" = Some [USER_AGENT]
    /\ Request.Method req = (if String.eqb method "" then "GET" else method)
    /\ Request.Body req = EmptyString.
Proof.
  intros Hmethod [p Hpath] Haddr Hround.
  unfold Client.NewRequest, http_NewRequest.
  rewrite Hpath, Haddr, Hround, Haddr.
  assert (Hvalid :
    validMethod (if String.eqb method "" then "GET" else method) = true).
  { destruct Hmethod as [-> | Hvalid]; [reflexivity |].
    by destruct (String.eqb method ""). }
  rewrite Hvalid. simpl.
  eexists. split; [reflexivity |]. simpl.
  split; [exact Hround |].
  split; [| by split].
  unfold Header_Add. by rewrite lookup_insert_eq, lookup_empty.
Qed.

End Builder.

Lemma NewRequest_unencodable_witness :
  exists e,
    Client.NewRequest (Stub.client Stub.unreachable) "POST" "/user/-/profile.json"
      (Some Stub.Chan) []
    = (Some (inr e), [])
    /\ MalformedInput (Stub.client Stub.unreachable) "POST" "/user/-/profile.json"
         (Some Stub.Chan) e
    /\ (forall p u : string,
          Stub.Parse "/user/-/profile.json" = inl p ->
          Stub.Parse (BASE_URL +:+ "/user/-/profile.json") = inl u ->
          e = json_UnsupportedTypeError "chan int")
    /\ sends (Client.NewRequest (Stub.client Stub.unreachable) "POST"
                "/user/-/profile.json" (Some Stub.Chan) []).2
       = sends (@nil event).
Proof.
  apply (NewRequest_unencodable (Stub.client Stub.unreachable) "POST"
           "/user/-/profile.json" Stub.Chan (json_UnsupportedTypeError "chan int") []).
  reflexivity.
Defined.

Lemma NewRequest_builds_witness :
  exists req,
    Client.NewRequest (Stub.client Stub.unreachable) "GET" "/user/-/profile.json"
      (@None no_payload) []
    = (Some (inl req), [])
    /\ Request.URL req = "https://api.fitbit.com/1/user/-/profile.json"
    /\ Request.Header req !! "User-Agent" = Some ["go-fitbit-api:v0.0.1"]
    /\ Request.Method req = "GET"
    /\ Request.Body req = EmptyString.
Proof.
  apply (NewRequest_builds (Stub.client Stub.unreachable) "GET" "/user/-/profile.json"
           [] "https://api.fitbit.com/1/user/-/profile.json").
  - right. reflexivity.
  - exists "/user/-/profile.json". reflexivity.
  - reflexivity.
  - reflexivity.
Defined.

(** C3, as it was stated, fails: the path [/x] parses, and with the
    method [G T], which has a space, the builder returns the error of
    http.NewRequest and no request. *)
Lemma NewRequest_any_method_counterexample :
  Stub.Parse "/x" = inl "/x"
  /\ Client.NewRequest (Stub.client Stub.unreachable) "G T" "/x" (@None no_payload) []
     = (Some (inr (http_invalidMethod "G T")), [])
  /\ ~ (forall method path : string,
          (exists p, Stub.Parse path = inl p) ->
          exists req,
            Client.NewRequest (Stub.client Stub.unreachable) method path
              (@None no_payload) []
            = (Some (inl req), [])
            /\ Request.URL req = BASE_URL +:+ path
            /\ Request.Header req !! "User-Agent" = Some [USER_AGENT]).
Proof.
  split; [reflexivity |]. split; [reflexivity |].
  intros Hall.
  destruct (Hall "G T" "/x") as (req & Hreq & _); [by eexists |].
  discriminate Hreq.
Defined.

Section Accessors.

Context `{GoLib}.
Implicit Types (c : Client.t) (req : Request.t) (w : list event).

(** The ways through an accessor: the builder fails; the send fails; the
    status is bad; the decoder fails; all goes well, and then the body is
    closed a second time. *)
Ltac accessor_paths c method path :=
  destruct (NewRequest_pure (P := no_payload) c method path None) as [r Hr];
  unfold mbind, M_bind; rewrite !Hr; simpl;
  destruct r as [req | err]; [| reflexivity];
  rewrite Do_paths;
  destruct (RoundTrip (Client.Client c) req) as [resp | err]; [| reflexivity];
  simpl;
  destruct ((Response.StatusCode resp >? 299) || (Response.StatusCode resp <? 200));
    [reflexivity |];
  destruct (json_Unmarshal (content (Response.Body resp)) _) as [new [err |]];
    simpl; [reflexivity |];
  unfold Close, emit; by rewrite <- app_assoc.

Lemma ActivitySummaryForDay_paths c dayString w :
  Client.ActivitySummaryForDay c dayString w =
  match (Client.NewRequest c "GET"
           ("/user/-/activities/date/" +:+ dayString +:+ ".json")
           (@None no_payload) w).1 with
  | None => (None, w)
  | Some (inr err) => (Some (ActivitySummary.zero, Some err), w)
  | Some (inl req) =>
      match RoundTrip (Client.Client c) req with
      | inr err => (Some (ActivitySummary.zero, Some err), w ++ [Sent req])
      | inl resp =>
          let body := Response.Body resp in
          if (Response.StatusCode resp >? 299) || (Response.StatusCode resp <? 200) then
            (Some (ActivitySummary.zero,
                   Some (errors_New ("http request failed, resp: " +:+ fmt_GoSyntax resp))),
             w ++ [Sent req; Closed body])
          else
            match json_Unmarshal (content body) ActivitySummary.zero with
            | (summary, Some err) =>
                (Some (summary, Some err), w ++ [Sent req; Read body; Closed body])
            | (summary, None) =>
                (Some (summary, None),
                 w ++ [Sent req; Read body; Closed body; Closed body])
            end
      end
  end%list.
Proof.
  unfold Client.ActivitySummaryForDay.
  accessor_paths c "GET" ("/user/-/activities/date/" +:+ dayString +:+ ".json").
Qed.

Lemma UserProfile_paths c w :
  Client.UserProfile c w =
  match (Client.NewRequest c "GET" "/user/-/profile.json" (@None no_payload) w).1 with
  | None => (None, w)
  | Some (inr err) => (Some (UserProfile.zero, Some err), w)
  | Some (inl req) =>
      match RoundTrip (Client.Client c) req with
      | inr err => (Some (UserProfile.zero, Some err), w ++ [Sent req])
      | inl resp =>
          let body := Response.Body resp in
          if (Response.StatusCode resp >? 299) || (Response.StatusCode resp <? 200) then
            (Some (UserProfile.zero,
                   Some (errors_New ("http request failed, resp: " +:+ fmt_GoSyntax resp))),
             w ++ [Sent req; Closed body])
          else
            match json_Unmarshal (content body) UserProfile.zero with
            | (profile, Some err) =>
                (Some (profile, Some err), w ++ [Sent req; Read body; Closed body])
            | (profile, None) =>
                (Some (profile, None),
                 w ++ [Sent req; Read body; Closed body; Closed body])
            end
      end
  end%list.
Proof.
  unfold Client.UserProfile.
  accessor_paths c "GET" "/user/-/profile.json".
Qed.

(** The accessors return: the panic of a nil response is out of reach. *)
Lemma ActivitySummaryForDay_returns c dayString w :
  exists summary err w',
    Client.ActivitySummaryForDay c dayString w = (Some (summary, err), w').
Proof.
  rewrite ActivitySummaryForDay_paths.
  destruct (NewRequest_pure (P := no_payload) c "GET"
              ("/user/-/activities/date/" +:+ dayString +:+ ".json") None) as [r ->].
  simpl. destruct r as [req | err]; [| by eexists _, _, _].
  destruct (RoundTrip _ req) as [resp | err]; [| by eexists _, _, _].
  simpl. destruct (_ || _); [by eexists _, _, _ |].
  destruct (json_Unmarshal _ _) as [new [err |]]; by eexists _, _, _.
Qed.

Lemma UserProfile_returns c w :
  exists profile err w', Client.UserProfile c w = (Some (profile, err), w').
Proof.
  rewrite UserProfile_paths.
  destruct (NewRequest_pure (P := no_payload) c "GET" "/user/-/profile.json" None)
    as [r ->].
  simpl. destruct r as [req | err]; [| by eexists _, _, _].
  destruct (RoundTrip _ req) as [resp | err]; [| by eexists _, _, _].
  simpl. destruct (_ || _); [by eexists _, _, _ |].
  destruct (json_Unmarshal _ _) as [new [err |]]; by eexists _, _, _.
Qed.

(** C2, what the code does. On the way of [ActivitySummaryForDay] where
    all goes well, Close is called on the body of the response twice: by
    the deferred call of [Do], then by the accessor at line 159. *)
Theorem ActivitySummaryForDay_closes_twice c dayString w req
    (resp : Response.t) (summary : ActivitySummary.t) :
  Client.NewRequest c "GET" ("/user/-/activities/date/" +:+ dayString +:+ ".json")
    (@None no_payload) w = (Some (inl req), w) ->
  RoundTrip (Client.Client c) req = inl resp ->
  ok_status resp ->
  json_Unmarshal (content (Response.Body resp)) ActivitySummary.zero = (summary, None) ->
  Client.ActivitySummaryForDay c dayString w
  = (Some (summary, None),
     (w ++ [Sent req; Read (Response.Body resp);
            Closed (Response.Body resp); Closed (Response.Body resp)])%list)
  /\ closes (Response.Body resp) (Client.ActivitySummaryForDay c dayString w).2
     = S (S (closes (Response.Body resp) w)).
Proof.
  intros Hreq Hresp Hok Hdec.
  rewrite ActivitySummaryForDay_paths, Hreq. simpl.
  rewrite Hresp. simpl. rewrite (status_test_ok _ Hok), Hdec.
  split; [reflexivity |]. simpl.
  rewrite closes_app. unfold closes at 2. simpl.
  rewrite same_body_refl. simpl. lia.
Qed.

(** The same holds of [UserProfile], at line 175. *)
Lemma UserProfile_closes_twice c w req (resp : Response.t) (profile : UserProfile.t) :
  Client.NewRequest c "GET" "/user/-/profile.json" (@None no_payload) w
  = (Some (inl req), w) ->
  RoundTrip (Client.Client c) req = inl resp ->
  ok_status resp ->
  json_Unmarshal (content (Response.Body resp)) UserProfile.zero = (profile, None) ->
  closes (Response.Body resp) (Client.UserProfile c w).2
  = S (S (closes (Response.Body resp) w)).
Proof.
  intros Hreq Hresp Hok Hdec.
  rewrite UserProfile_paths, Hreq. simpl.
  rewrite Hresp. simpl. rewrite (status_test_ok _ Hok), Hdec. simpl.
  rewrite closes_app. unfold closes at 2. simpl.
  rewrite same_body_refl. simpl. lia.
Qed.

(** On the ways of an accessor where a response came and the call fails,
    the body is closed once. *)
Lemma ActivitySummaryForDay_failure_closes_once c dayString w req
    (resp : Response.t) (summary : ActivitySummary.t) (err : error) w' :
  Client.NewRequest c "GET" ("/user/-/activities/date/" +:+ dayString +:+ ".json")
    (@None no_payload) w = (Some (inl req), w) ->
  RoundTrip (Client.Client c) req = inl resp ->
  Client.ActivitySummaryForDay c dayString w = (Some (summary, Some err), w') ->
  closes (Response.Body resp) w' = S (closes (Response.Body resp) w).
Proof.
  intros Hreq Hresp.
  rewrite ActivitySummaryForDay_paths, Hreq. simpl. rewrite Hresp. simpl.
  destruct (_ || _).
  - intros [= _ _ <-]. rewrite closes_app. unfold closes at 2. simpl.
    rewrite same_body_refl. simpl. lia.
  - destruct (json_Unmarshal _ _) as [new [e |]]; intros [= _ _ <-].
    rewrite closes_app. unfold closes at 2. simpl.
    rewrite same_body_refl. simpl. lia.
Qed.

(** What a failing call of [ActivitySummaryForDay] returns. *)
Lemma ActivitySummaryForDay_failure c dayString w
    (summary : ActivitySummary.t) (err : error) w' :
  Client.ActivitySummaryForDay c dayString w = (Some (summary, Some err), w') ->
  (Client.NewRequest c "GET" ("/user/-/activities/date/" +:+ dayString +:+ ".json")
     (@None no_payload) w = (Some (inr err), w')
   /\ summary = ActivitySummary.zero)
  \/ exists req resp,
       Client.NewRequest c "GET" ("/user/-/activities/date/" +:+ dayString +:+ ".json")
         (@None no_payload) w = (Some (inl req), w)
       /\ Client.Do c req (Some ActivitySummary.zero) w
          = (Some (resp, Some err, Some summary), w')
       /\ (summary = ActivitySummary.zero
           \/ exists r,
                RoundTrip (Client.Client c) req = inl r /\ ok_status r
                /\ json_Unmarshal (content (Response.Body r)) ActivitySummary.zero
                   = (summary, Some err)).
Proof.
  rewrite ActivitySummaryForDay_paths.
  destruct (NewRequest_pure (P := no_payload) c "GET"
              ("/user/-/activities/date/" +:+ dayString +:+ ".json") None) as [r Hr].
  rewrite !Hr. simpl.
  destruct r as [req | e]; [| intros [= <- <- <-]; by left].
  intros Hrun. right. exists req. rewrite Do_paths.
  destruct (RoundTrip _ req) as [resp | e] eqn:Hresp.
  - simpl in *.
    destruct (_ || _) eqn:Hstatus.
    + injection Hrun as <- <- <-. eexists. repeat split; eauto.
    + destruct (json_Unmarshal _ _) as [new [e |]] eqn:Hdec; [| discriminate].
      injection Hrun as <- <- <-. simpl. eexists. repeat split; eauto.
      right. exists resp. repeat split; eauto.
      all: apply orb_false_iff in Hstatus as [? ?]; lia.
  - injection Hrun as <- <- <-. eexists. repeat split; eauto.
Qed.

Lemma UserProfile_failure c w (profile : UserProfile.t) (err : error) w' :
  Client.UserProfile c w = (Some (profile, Some err), w') ->
  (Client.NewRequest c "GET" "/user/-/profile.json" (@None no_payload) w
   = (Some (inr err), w')
   /\ profile = UserProfile.zero)
  \/ exists req resp,
       Client.NewRequest c "GET" "/user/-/profile.json" (@None no_payload) w
       = (Some (inl req), w)
       /\ Client.Do c req (Some UserProfile.zero) w
          = (Some (resp, Some err, Some profile), w')
       /\ (profile = UserProfile.zero
           \/ exists r,
                RoundTrip (Client.Client c) req = inl r /\ ok_status r
                /\ json_Unmarshal (content (Response.Body r)) UserProfile.zero
                   = (profile, Some err)).
Proof.
  rewrite UserProfile_paths.
  destruct (NewRequest_pure (P := no_payload) c "GET" "/user/-/profile.json" None)
    as [r Hr].
  rewrite !Hr. simpl.
  destruct r as [req | e]; [| intros [= <- <- <-]; by left].
  intros Hrun. right. exists req. rewrite Do_paths.
  destruct (RoundTrip _ req) as [resp | e] eqn:Hresp.
  - simpl in *.
    destruct (_ || _) eqn:Hstatus.
    + injection Hrun as <- <- <-. eexists. repeat split; eauto.
    + destruct (json_Unmarshal _ _) as [new [e |]] eqn:Hdec; [| discriminate].
      injection Hrun as <- <- <-. simpl. eexists. repeat split; eauto.
      right. exists resp. repeat split; eauto.
      all: apply orb_false_iff in Hstatus as [? ?]; lia.
  - injection Hrun as <- <- <-. eexists. repeat split; eauto.
Qed.

End Accessors.

Lemma ActivitySummaryForDay_closes_twice_witness :
  exists summary,
    Client.ActivitySummaryForDay (Stub.client (Stub.server "200 OK" 200 golden))
      "2013-06-27" []
    = (Some (summary, None),
       [Sent (Request.mk Stub.lib "GET"
                "https://api.fitbit.com/1/user/-/activities/date/2013-06-27.json"
                (Header_Add "User-Agent" USER_AGENT ∅) EmptyString);
        Read {| content := golden |};
        Closed {| content := golden |}; Closed {| content := golden |}])
    /\ closes {| content := golden |}
         (Client.ActivitySummaryForDay (Stub.client (Stub.server "200 OK" 200 golden))
            "2013-06-27" []).2
       = 2%nat.
Proof.
  exists (json_Unmarshal golden ActivitySummary.zero).1.
  apply (ActivitySummaryForDay_closes_twice
           (Stub.client (Stub.server "200 OK" 200 golden)) "2013-06-27" []
           (Request.mk Stub.lib "GET"
              "https://api.fitbit.com/1/user/-/activities/date/2013-06-27.json"
              (Header_Add "User-Agent" USER_AGENT ∅) EmptyString)
           (Response.mk "200 OK" 200 ∅ {| content := golden |})).
  - reflexivity.
  - reflexivity.
  - unfold ok_status. simpl. lia.
  - reflexivity.
Defined.

(** C7, amended. A failing call of an accessor returns the error of the
    builder or of [Do] as it got it. The record with it is the variable
    [Do] was given: its zero value when the builder failed, the send
    failed or the status was bad, and what the decoder left in it when the
    decoder failed. *)
Theorem accessors_failure `{GoLib} (c : Client.t) (dayString : string)
    (w w' : list event) (err : error) :
  (forall summary : ActivitySummary.t,
     Client.ActivitySummaryForDay c dayString w = (Some (summary, Some err), w') ->
     (Client.NewRequest c "GET" ("/user/-/activities/date/" +:+ dayString +:+ ".json")
        (@None no_payload) w = (Some (inr err), w')
      /\ summary = ActivitySummary.zero)
     \/ exists req resp,
          Client.NewRequest c "GET"
            ("/user/-/activities/date/" +:+ dayString +:+ ".json")
            (@None no_payload) w = (Some (inl req), w)
          /\ Client.Do c req (Some ActivitySummary.zero) w
             = (Some (resp, Some err, Some summary), w')
          /\ (summary = ActivitySummary.zero
              \/ exists r,
                   RoundTrip (Client.Client c) req = inl r /\ ok_status r
                   /\ json_Unmarshal (content (Response.Body r)) ActivitySummary.zero
                      = (summary, Some err)))
  /\ (forall profile : UserProfile.t,
        Client.UserProfile c w = (Some (profile, Some err), w') ->
        (Client.NewRequest c "GET" "/user/-/profile.json" (@None no_payload) w
         = (Some (inr err), w')
         /\ profile = UserProfile.zero)
        \/ exists req resp,
             Client.NewRequest c "GET" "/user/-/profile.json" (@None no_payload) w
             = (Some (inl req), w)
             /\ Client.Do c req (Some UserProfile.zero) w
                = (Some (resp, Some err, Some profile), w')
             /\ (profile = UserProfile.zero
                 \/ exists r,
                      RoundTrip (Client.Client c) req = inl r /\ ok_status r
                      /\ json_Unmarshal (content (Response.Body r)) UserProfile.zero
                         = (profile, Some err))).
Proof.
  split; intros record Hrun.
  - by apply ActivitySummaryForDay_failure.
  - by apply UserProfile_failure.
Qed.

Lemma accessors_failure_witness :
  exists (profile : UserProfile.t) (err : error) (w' : list event),
    Client.UserProfile (Stub.client (Stub.server "404 Not Found" 404 "Not Found")) []
    = (Some (profile, Some err), w')
    /\ ((Client.NewRequest (Stub.client (Stub.server "404 Not Found" 404 "Not Found"))
           "GET" "/user/-/profile.json" (@None no_payload) []
         = (Some (inr err), w')
         /\ profile = UserProfile.zero)
        \/ exists req resp,
             Client.NewRequest (Stub.client (Stub.server "404 Not Found" 404 "Not Found"))
               "GET" "/user/-/profile.json" (@None no_payload) []
             = (Some (inl req), [])
             /\ Client.Do (Stub.client (Stub.server "404 Not Found" 404 "Not Found"))
                  req (Some UserProfile.zero) []
                = (Some (resp, Some err, Some profile), w')
             /\ (profile = UserProfile.zero
                 \/ exists r,
                      RoundTrip (Stub.server "404 Not Found" 404 "Not Found") req = inl r
                      /\ ok_status r
                      /\ json_Unmarshal (content (Response.Body r)) UserProfile.zero
                         = (profile, Some err))).
Proof.
  eexists _, _, _. split; [reflexivity |].
  apply (proj2 (accessors_failure
                  (Stub.client (Stub.server "404 Not Found" 404 "Not Found"))
                  EmptyString [] _ _)).
  reflexivity.
Defined.

(** C7, as it was stated, fails: the server answers 200 with a body whose
    goals decode and whose summary does not; the call fails with the
    decoder's error, and the record it returns has the goal of 10000
    steps, so it is not the zero value. *)
Lemma accessor_zero_record_counterexample :
  exists (summary : ActivitySummary.t) (w' : list event),
    Client.ActivitySummaryForDay (Stub.client (Stub.server "200 OK" 200 half_right))
      "2013-06-27" []
    = (Some (summary, Some (json_UnmarshalTypeError "string" "int")), w')
    /\ Goals.Steps (ActivitySummary.Goals summary) = 10000
    /\ summary <> ActivitySummary.zero.
Proof.
  eexists _, _. split; [reflexivity |]. split; [reflexivity |].
  intros Heq.
  apply (f_equal (fun s => Goals.Steps (ActivitySummary.Goals s))) in Heq.
  discriminate Heq.
Qed.

(** C8. When the request of the day 2013-06-27 is built and the server
    answers it with status 200 and the body
    [{"goals":{"steps":10000},"summary":{"steps":8000}}], the accessor
    returns no error and a summary with Goals.Steps = 10000 and
    Summary.Steps = 8000. *)
Theorem ActivitySummaryForDay_golden `{GoLib} (c : Client.t) (req : Request.t)
    (resp : Response.t) (w : list event) :
  Client.NewRequest c "GET" "/user/-/activities/date/2013-06-27.json"
    (@None no_payload) w = (Some (inl req), w) ->
  RoundTrip (Client.Client c) req = inl resp ->
  Response.StatusCode resp = 200 ->
  content (Response.Body resp) = golden ->
  exists (summary : ActivitySummary.t) (w' : list event),
    Client.ActivitySummaryForDay c "2013-06-27" w = (Some (summary, None), w')
    /\ Goals.Steps (ActivitySummary.Goals summary) = 10000
    /\ Summary.Steps (ActivitySummary.Summary summary) = 8000.
Proof.
  intros Hreq Hresp Hstatus Hbody.
  rewrite ActivitySummaryForDay_paths.
  change ("/user/-/activities/date/" +:+ "2013-06-27" +:+ ".json")
    with "/user/-/activities/date/2013-06-27.json".
  rewrite Hreq. simpl. rewrite Hresp. simpl. rewrite Hstatus, Hbody.
  eexists _, _. split; [reflexivity |]. split; reflexivity.
Qed.

Lemma ActivitySummaryForDay_golden_witness :
  exists (summary : ActivitySummary.t) (w' : list event),
    Client.ActivitySummaryForDay (Stub.client (Stub.server "200 OK" 200 golden))
      "2013-06-27" []
    = (Some (summary, None), w')
    /\ Goals.Steps (ActivitySummary.Goals summary) = 10000
    /\ Summary.Steps (ActivitySummary.Summary summary) = 8000.
Proof.
  apply (ActivitySummaryForDay_golden
           (Stub.client (Stub.server "200 OK" 200 golden))
           (Request.mk Stub.lib "GET"
              "https://api.fitbit.com/1/user/-/activities/date/2013-06-27.json"
              (Header_Add "User-Agent" USER_AGENT ∅) EmptyString)
           (Response.mk "200 OK" 200 ∅ {| content := golden |}) []).
  - reflexivity.
  - reflexivity.
  - reflexivity.
  - reflexivity.
Defined.

(** C9. The two kinds of failure of [Do] differ in the response they
    return. When the send fails or the status is outside [200, 299], the
    response is nil and the destination is as it was. When the status is
    in [200, 299] and the decoder fails on a destination that is not nil,
    the response is returned with the decoder's error, and the destination
    holds what the decoder left, which can differ from what it held: the
    reply [half_right] leaves the goals in a summary. *)
Theorem Do_failure_asymmetry `{GoLib} {D : Type} `{Unmarshaler D}
    (c : Client.t) (req : Request.t) (respStr : option D) (w : list event) :
  (forall err,
     RoundTrip (Client.Client c) req = inr err ->
     Client.Do c req respStr w = (Some (None, Some err, respStr), (w ++ [Sent req])%list))
  /\ (forall resp : Response.t,
        RoundTrip (Client.Client c) req = inl resp -> bad_status resp ->
        exists err w',
          Client.Do c req respStr w = (Some (None, Some err, respStr), w'))
  /\ (forall (resp : Response.t) (old new : D) err,
        RoundTrip (Client.Client c) req = inl resp -> ok_status resp ->
        respStr = Some old ->
        json_Unmarshal (content (Response.Body resp)) old = (new, Some err) ->
        exists w',
          Client.Do c req respStr w = (Some (Some resp, Some err, Some new), w'))
  /\ (exists (new : ActivitySummary.t) err,
        json_Unmarshal half_right ActivitySummary.zero = (new, Some err)
        /\ new <> ActivitySummary.zero).
Proof.
  split; [| split; [| split]].
  - intros err Hsend. by rewrite Do_paths, Hsend.
  - intros resp Hresp Hbad.
    rewrite Do_paths, Hresp. simpl. rewrite (status_test_bad _ Hbad).
    by eexists _, _.
  - intros resp old new err Hresp Hok -> Hdec.
    rewrite Do_paths, Hresp. simpl. rewrite (status_test_ok _ Hok), Hdec.
    by eexists.
  - eexists _, _. split; [reflexivity |].
    intros Heq.
    apply (f_equal (fun s => Goals.Steps (ActivitySummary.Goals s))) in Heq.
    discriminate Heq.
Qed.

Lemma Do_failure_asymmetry_witness :
  (exists w',
     Client.Do (Stub.client Stub.unreachable) Stub.request (Some ActivitySummary.zero) []
     = (Some (None,
              Some (url_Error "Get" "https://api.fitbit.com/1/user/-/profile.json"
                      (errorString "dial tcp: connection refused")),
              Some ActivitySummary.zero), w'))
  /\ (exists err w',
        Client.Do (Stub.client (Stub.server "404 Not Found" 404 "Not Found"))
          Stub.request (Some ActivitySummary.zero) []
        = (Some (None, Some err, Some ActivitySummary.zero), w'))
  /\ (exists new w',
        Client.Do (Stub.client (Stub.server "200 OK" 200 half_right))
          Stub.request (Some ActivitySummary.zero) []
        = (Some (Some (Response.mk "200 OK" 200 ∅ {| content := half_right |}),
                 Some (json_UnmarshalTypeError "string" "int"), Some new), w')
        /\ Goals.Steps (ActivitySummary.Goals new) = 10000).
Proof.
  split; [| split].
  - eexists.
    apply (proj1 (Do_failure_asymmetry (Stub.client Stub.unreachable) Stub.request
                    (Some ActivitySummary.zero) [])).
    reflexivity.
  - apply (proj1 (proj2 (Do_failure_asymmetry
                           (Stub.client (Stub.server "404 Not Found" 404 "Not Found"))
                           Stub.request (Some ActivitySummary.zero) []))
             (Response.mk "404 Not Found" 404 ∅ {| content := "Not Found" |})).
    + reflexivity.
    + right. simpl. lia.
  - exists (json_Unmarshal half_right ActivitySummary.zero).1.
    destruct (proj1 (proj2 (proj2 (Do_failure_asymmetry
                 (Stub.client (Stub.server "200 OK" 200 half_right))
                 Stub.request (Some ActivitySummary.zero) [])))
                (Response.mk "200 OK" 200 ∅ {| content := half_right |})
                ActivitySummary.zero
                (json_Unmarshal half_right ActivitySummary.zero).1
                (json_UnmarshalTypeError "string" "int")) as [w' Hrun].
    + reflexivity.
    + unfold ok_status. simpl. lia.
    + reflexivity.
    + reflexivity.
    + exists w'. split; [exact Hrun | reflexivity].
Defined.

(** * Further properties of the executor *)

Lemma closes_cons `{GoLib} (body : ReadCloser) (e : event) (w : list event) :
  closes body (e :: w)
  = ((match e with Closed b => if same_body b body then 1 else 0 | _ => 0 end)
     + closes body w)%nat.
Proof.
  unfold closes. simpl. destruct e as [r | b | b]; try reflexivity.
  by destruct (same_body b body).
Qed.


Lemma status_test_false_iff (resp : Response.t) :
  (Response.StatusCode resp >? 299) || (Response.StatusCode resp <? 200) = false
  <-> ok_status resp.
Proof.
  unfold ok_status. rewrite orb_false_iff. split; intros [? ?]; split; lia.
Qed.

(** X1. [Do] makes one attempt: on every input it returns, the request
    is sent first and nothing else is sent, and a nil response never comes
    with a nil error. *)
Theorem Do_single_attempt `{GoLib} {D : Type} `{Unmarshaler D}
    (c : Client.t) (req : Request.t) (respStr : option D) (w : list event) :
  exists resp err dest events,
    Client.Do c req respStr w = (Some (resp, err, dest), (w ++ Sent req :: events)%list)
    /\ sends events = 0%nat
    /\ (resp = None -> err <> None).
Proof.
  rewrite Do_paths.
  destruct (RoundTrip (Client.Client c) req) as [resp | err]; simpl.
  - destruct ((Response.StatusCode resp >? 299) || (Response.StatusCode resp <? 200));
      [| destruct respStr];
      eexists _, _, _, _; (split; [reflexivity |]); (split; [reflexivity | congruence]).
  - eexists _, _, _, []. split; [reflexivity |]. split; [reflexivity | congruence].
Qed.

(** X2. [Do] returns a response exactly when the server sent one whose
    status code is in [200, 299], the two bounds included, and it is that
    response. *)
Theorem Do_response_iff `{GoLib} {D : Type} `{Unmarshaler D}
    (c : Client.t) (req : Request.t) (respStr : option D) (w : list event)
    (resp : Response.t) :
  (exists err dest w', Client.Do c req respStr w = (Some (Some resp, err, dest), w'))
  <-> RoundTrip (Client.Client c) req = inl resp /\ ok_status resp.
Proof.
  rewrite Do_paths. split.
  - intros (err & dest & w' & Hrun).
    destruct (RoundTrip (Client.Client c) req) as [r | e]; [| discriminate].
    simpl in Hrun.
    destruct ((Response.StatusCode r >? 299) || (Response.StatusCode r <? 200)) eqn:Htest;
      [discriminate |].
    apply status_test_false_iff in Htest.
    destruct respStr; injection Hrun as <- _ _ _; by split.
  - intros [-> Hok]. simpl. rewrite (status_test_ok _ Hok).
    destruct respStr; by eexists _, _, _.
Qed.

(** X3. [Do] returns a nil error exactly when a response came with a
    status code in [200, 299] and either the destination is nil or the
    decoder accepts the body for it. *)
Theorem Do_nil_error_iff `{GoLib} {D : Type} `{Unmarshaler D}
    (c : Client.t) (req : Request.t) (respStr : option D) (w : list event) :
  (exists resp dest w', Client.Do c req respStr w = (Some (resp, None, dest), w'))
  <-> exists resp : Response.t,
        RoundTrip (Client.Client c) req = inl resp /\ ok_status resp
        /\ (respStr = None
            \/ exists old new,
                 respStr = Some old
                 /\ json_Unmarshal (content (Response.Body resp)) old = (new, None)).
Proof.
  rewrite Do_paths. split.
  - intros (resp & dest & w' & Hrun).
    destruct (RoundTrip (Client.Client c) req) as [r | e]; [| discriminate].
    simpl in Hrun.
    destruct ((Response.StatusCode r >? 299) || (Response.StatusCode r <? 200)) eqn:Htest;
      [discriminate |].
    apply status_test_false_iff in Htest.
    exists r. split; [reflexivity |]. split; [assumption |].
    destruct respStr as [old |]; [| by left].
    right. exists old, (json_Unmarshal (content (Response.Body r)) old).1.
    split; [reflexivity |].
    destruct (json_Unmarshal (content (Response.Body r)) old) as [new err].
    simpl in *. by injection Hrun as _ -> _ _.
  - intros (resp & -> & Hok & Hdest). simpl. rewrite (status_test_ok _ Hok).
    destruct Hdest as [-> | (old & new & -> & Hdec)].
    + by eexists _, _, _.
    + rewrite Hdec. by eexists _, _, _.
Qed.

(** X4. [Do] calls Close once on the body of the response it received,
    whatever the status, the destination and the decoder do, and calls
    Close on nothing when the send fails. *)
Theorem Do_close_count `{GoLib} {D : Type} `{Unmarshaler D}
    (c : Client.t) (req : Request.t) (respStr : option D) (w : list event)
    (body : ReadCloser) :
  closes body (Client.Do c req respStr w).2
  = (closes body w
     + match RoundTrip (Client.Client c) req with
       | inl resp => if same_body (Response.Body resp) body then 1 else 0
       | inr _ => 0
       end)%nat.
Proof.
  rewrite Do_paths.
  destruct (RoundTrip (Client.Client c) req) as [resp | err]; simpl.
  - destruct ((Response.StatusCode resp >? 299) || (Response.StatusCode resp <? 200));
      [| destruct respStr]; simpl;
      rewrite closes_app, !closes_cons; unfold closes; simpl; lia.
  - rewrite closes_app, closes_cons. unfold closes. simpl. lia.
Qed.



(** * Further properties of the builder *)

Lemma Header_Add_empty (key value : string) :
  Header_Add key value ∅ = {[key := [value]]}.
Proof. unfold Header_Add. by rewrite lookup_empty, insert_empty. Qed.

(** The builder in one piece: what it returns is decided, in this order,
    by the parse of the path, the parse of the address, the encoding of
    the payload, the method and the parse of the printed address. *)
Lemma NewRequest_paths `{GoLib} {P : Type} `{Marshaler P}
    (c : Client.t) (method urlStr : string) (body : option P) (w : list event) :
  Client.NewRequest c method urlStr body w =
  (Some
     match url_Parse urlStr with
     | inr err => inr err
     | inl _ =>
         match url_Parse (url_String (Client.BaseUrl c) +:+ urlStr) with
         | inr err => inr err
         | inl u =>
             match (match body with Some v => Encode v | None => inl EmptyString end) with
             | inr err => inr err
             | inl buf =>
                 let method' := if String.eqb method "" then "GET" else method in
                 if validMethod method' then
                   match url_Parse (url_String u) with
                   | inr err => inr err
                   | inl u' =>
                       inl (Request.mk _ method' u' {["User-Agent" := [USER_AGENT]]} buf)
                   end
                 else inr (http_invalidMethod method')
             end
         end
     end, w).
Proof.
  unfold Client.NewRequest, http_NewRequest.
  destruct (url_Parse urlStr) as [p |]; [| reflexivity].
  destruct (url_Parse (_ +:+ urlStr)) as [u |]; [| reflexivity].
  destruct (match body with Some v => Encode v | None => inl EmptyString end);
    [| reflexivity].
  destruct (validMethod _); simpl; [| reflexivity].
  destruct (url_Parse (url_String u)) as [u' |]; [| reflexivity].
  simpl. by rewrite Header_Add_empty.
Qed.

(** X6. Every request the builder makes has one header and no more:
    User-Agent, with the one value of the constant. With a payload too,
    no Content-Type is set. *)
Theorem NewRequest_only_user_agent `{GoLib} {P : Type} `{Marshaler P}
    (c : Client.t) (method urlStr : string) (body : option P) (w w' : list event)
    (req : Request.t) :
  Client.NewRequest c method urlStr body w = (Some (inl req), w') ->
  Request.Header req = {["User-Agent" := ["go-fitbit-api:v0.0.1"]]}
  /\ forall key, key <> "User-Agent" -> Request.Header req !! key = None.
Proof.
  rewrite NewRequest_paths.
  destruct (url_Parse urlStr) as [p |]; [| discriminate].
  destruct (url_Parse (_ +:+ urlStr)) as [u |]; [| discriminate].
  destruct (match body with Some v => Encode v | None => inl EmptyString end);
    [| discriminate].
  simpl. destruct (validMethod _); [| discriminate].
  destruct (url_Parse (url_String u)) as [u' |]; [| discriminate].
  intros [= <- _]. simpl. split; [reflexivity |].
  intros key Hkey. by rewrite lookup_singleton_ne.
Qed.

(** X7. The body of a request built with a payload is the JSON text of
    the payload followed by a newline; with a nil payload it is empty. *)
Theorem NewRequest_body `{GoLib} {P : Type} `{Marshaler P}
    (c : Client.t) (method urlStr : string) (body : option P) (w w' : list event)
    (req : Request.t) :
  Client.NewRequest c method urlStr body w = (Some (inl req), w') ->
  match body with
  | Some v =>
      exists text, json_Marshal v = inl text
                   /\ Request.Body req = text +:+ String "010" EmptyString
  | None => Request.Body req = EmptyString
  end.
Proof.
  rewrite NewRequest_paths.
  destruct (url_Parse urlStr) as [p |]; [| discriminate].
  destruct (url_Parse (_ +:+ urlStr)) as [u |]; [| discriminate].
  destruct body as [v |].
  - unfold Encode. destruct (json_Marshal v) as [text |]; [| discriminate].
    simpl. destruct (validMethod _); [| discriminate].
    destruct (url_Parse (url_String u)) as [u' |]; [| discriminate].
    intros [= <- _]. by exists text.
  - simpl. destruct (validMethod _); [| discriminate].
    destruct (url_Parse (url_String u)) as [u' |]; [| discriminate].
    by intros [= <- _].
Qed.

(** X8. The builder succeeds exactly when the path parses, the address
    (the text of the base URL followed by the path) parses, the payload,
    if there is one, has a JSON text, the method is empty or a token, and
    the address as the URL prints it parses again; the request then has
    the URL of that last parse. *)
Theorem NewRequest_succeeds_iff `{GoLib} {P : Type} `{Marshaler P}
    (c : Client.t) (method urlStr : string) (body : option P) (w : list event)
    (req : Request.t) :
  Client.NewRequest c method urlStr body w = (Some (inl req), w)
  <-> exists p u buf,
        url_Parse urlStr = inl p
        /\ url_Parse (url_String (Client.BaseUrl c) +:+ urlStr) = inl u
        /\ match body with Some v => Encode v | None => inl EmptyString end = inl buf
        /\ (method = EmptyString \/ validMethod method = true)
        /\ url_Parse (url_String u) = inl (Request.URL req)
        /\ req = Request.mk _ (if String.eqb method "" then "GET" else method)
                   (Request.URL req) {["User-Agent" := [USER_AGENT]]} buf.
Proof.
  rewrite NewRequest_paths. split.
  - destruct (url_Parse urlStr) as [p |]; [| discriminate].
    destruct (url_Parse (_ +:+ urlStr)) as [u |]; [| discriminate].
    destruct (match body with Some v => Encode v | None => inl EmptyString end)
      as [buf |]; [| discriminate].
    simpl. destruct (validMethod _) eqn:Hvalid; [| discriminate].
    destruct (url_Parse (url_String u)) as [u' |] eqn:Hu; [| discriminate].
    intros [= <-]. exists p, u, buf. simpl. repeat split; try done.
    destruct (String.eqb method "") eqn:Hm; [left; by apply String.eqb_eq | by right].
  - intros (p & u & buf & -> & -> & -> & Hmethod & Hu & ->). simpl.
    assert (validMethod (if String.eqb method "" then "GET" else method) = true)
      as ->.
    { destruct Hmethod as [-> | Hvalid]; [reflexivity |].
      by destruct (String.eqb method ""). }
    by rewrite Hu.
Qed.

(** X9. The errors of the builder come in the order of its checks: a path
    that does not parse gives its error whatever the rest; then the
    address; then the payload; then the method; and the printed address
    last. *)
Theorem NewRequest_error_order `{GoLib} {P : Type} `{Marshaler P}
    (c : Client.t) (method urlStr : string) (body : option P) (w : list event)
    (err : error) :
  Client.NewRequest c method urlStr body w = (Some (inr err), w)
  <-> url_Parse urlStr = inr err
      \/ exists p,
           url_Parse urlStr = inl p
           /\ (url_Parse (url_String (Client.BaseUrl c) +:+ urlStr) = inr err
               \/ exists u,
                    url_Parse (url_String (Client.BaseUrl c) +:+ urlStr) = inl u
                    /\ ((exists v, body = Some v /\ Encode v = inr err)
                        \/ exists buf,
                             match body with
                             | Some v => Encode v
                             | None => inl EmptyString
                             end = inl buf
                             /\ ((method <> EmptyString /\ validMethod method = false
                                  /\ err = http_invalidMethod method)
                                 \/ ((method = EmptyString \/ validMethod method = true)
                                     /\ url_Parse (url_String u) = inr err)))).
Proof.
  rewrite NewRequest_paths. split.
  - destruct (url_Parse urlStr) as [p |]; [| intros [= ->]; by left].
    intros Hrun. right. exists p. split; [reflexivity |].
    destruct (url_Parse (_ +:+ urlStr)) as [u |]; [| injection Hrun as ->; by left].
    right. exists u. split; [reflexivity |].
    destruct body as [v |].
    + destruct (Encode v) as [buf |] eqn:Henc;
        [| injection Hrun as ->; left; by exists v].
      right. exists buf. split; [reflexivity |]. simpl in Hrun.
      destruct (String.eqb method "") eqn:Hm.
      * apply String.eqb_eq in Hm as ->. simpl in Hrun.
        destruct (url_Parse (url_String u)) as [u' |]; [discriminate |].
        injection Hrun as ->. right. split; [by left | reflexivity].
      * destruct (validMethod method) eqn:Hvalid.
        -- destruct (url_Parse (url_String u)) as [u' |]; [discriminate |].
           injection Hrun as ->. right. split; [by right | reflexivity].
        -- injection Hrun as <-. left. repeat split; try done.
           intros ->. discriminate Hm.
    + right. exists EmptyString. split; [reflexivity |]. simpl in Hrun.
      destruct (String.eqb method "") eqn:Hm.
      * apply String.eqb_eq in Hm as ->. simpl in Hrun.
        destruct (url_Parse (url_String u)) as [u' |]; [discriminate |].
        injection Hrun as ->. right. split; [by left | reflexivity].
      * destruct (validMethod method) eqn:Hvalid.
        -- destruct (url_Parse (url_String u)) as [u' |]; [discriminate |].
           injection Hrun as ->. right. split; [by right | reflexivity].
        -- injection Hrun as <-. left. repeat split; try done.
           intros ->. discriminate Hm.
  - intros [-> | (p & -> & [-> | (u & -> & Hrest)])]; [reflexivity .. |].
    destruct Hrest as [(v & -> & ->) | (buf & -> & Hrest)]; [reflexivity |].
    simpl. destruct Hrest as [(Hne & Hbad & ->) | (Hmethod & Hu)].
    + destruct (String.eqb method "") eqn:Hm;
        [apply String.eqb_eq in Hm; contradiction |].
      by rewrite Hbad.
    + assert (validMethod (if String.eqb method "" then "GET" else method) = true)
        as ->.
      { destruct Hmethod as [-> | Hvalid]; [reflexivity |].
        by destruct (String.eqb method ""). }
      by rewrite Hu.
Qed.


Lemma NewRequest_only_user_agent_witness :
  Request.Header
    (Request.mk Stub.lib "POST" "https://api.fitbit.com/1/user/-/profile.json"
       {["User-Agent" := [USER_AGENT]]} ("true" +:+ String "010" EmptyString))
  = {["User-Agent" := ["go-fitbit-api:v0.0.1"]]}
  /\ forall key,
       key <> "User-Agent" ->
       Request.Header
         (Request.mk Stub.lib "POST" "https://api.fitbit.com/1/user/-/profile.json"
            {["User-Agent" := [USER_AGENT]]} ("true" +:+ String "010" EmptyString))
       !! key = None.
Proof.
  apply (NewRequest_only_user_agent (Stub.client Stub.unreachable) "POST"
           "/user/-/profile.json" (Some (Stub.Flag true)) [] []).
  rewrite NewRequest_paths. reflexivity.
Defined.

Lemma NewRequest_body_witness :
  exists text,
    json_Marshal (Stub.Flag true) = inl text
    /\ Request.Body
         (Request.mk Stub.lib "POST" "https://api.fitbit.com/1/user/-/profile.json"
            {["User-Agent" := [USER_AGENT]]} ("true" +:+ String "010" EmptyString))
       = text +:+ String "010" EmptyString.
Proof.
  apply (NewRequest_body (Stub.client Stub.unreachable) "POST"
           "/user/-/profile.json" (Some (Stub.Flag true)) [] []).
  rewrite NewRequest_paths. reflexivity.
Defined.

(** * Further properties of the accessors *)

Section MoreAccessors.

Context `{GoLib}.
Implicit Types (c : Client.t) (req : Request.t) (w : list event).

(** The request of a GET with no payload, when the address parses and
    prints back as it was written. *)
Lemma NewRequest_get c (path : string) w (u : url_URL) :
  (exists p, url_Parse path = inl p) ->
  url_Parse (url_String (Client.BaseUrl c) +:+ path) = inl u ->
  url_String u = url_String (Client.BaseUrl c) +:+ path ->
  Client.NewRequest c "GET" path (@None no_payload) w
  = (Some (inl (Request.mk _ "GET" u {["User-Agent" := [USER_AGENT]]} EmptyString)), w).
Proof.
  intros [p Hpath] Haddr Hround.
  rewrite NewRequest_paths, Hpath, Haddr. simpl. by rewrite Hround, Haddr.
Qed.

(** X11. [ActivitySummaryForDay] sends one request, and first of all: a
    GET with no body and the User-Agent header, for the address made of
    the base URL, [/user/-/activities/date/], the day string as it was
    given and [.json]. *)
Theorem ActivitySummaryForDay_request c (dayString : string) w (u : url_URL) :
  (exists p, url_Parse ("/user/-/activities/date/" +:+ dayString +:+ ".json") = inl p) ->
  url_Parse (url_String (Client.BaseUrl c)
             +:+ "/user/-/activities/date/" +:+ dayString +:+ ".json") = inl u ->
  url_String u = url_String (Client.BaseUrl c)
                 +:+ "/user/-/activities/date/" +:+ dayString +:+ ".json" ->
  exists r events,
    Client.ActivitySummaryForDay c dayString w
    = (Some r,
       (w ++ Sent (Request.mk _ "GET" u {["User-Agent" := [USER_AGENT]]} EmptyString)
          :: events)%list)
    /\ sends events = 0%nat.
Proof.
  intros Hpath Haddr Hround.
  rewrite ActivitySummaryForDay_paths, (NewRequest_get _ _ _ u Hpath Haddr Hround).
  simpl.
  destruct (RoundTrip _ _) as [resp | err]; [| by eexists _, []].
  simpl. destruct (_ || _); [by eexists _, _ |].
  destruct (json_Unmarshal _ _) as [new [err |]]; by eexists _, _.
Qed.

(** X12. [UserProfile] sends one request, and first of all: a GET with no
    body and the User-Agent header, for the address made of the base URL
    and [/user/-/profile.json]. *)
Theorem UserProfile_request c w (u : url_URL) :
  (exists p, url_Parse "/user/-/profile.json" = inl p) ->
  url_Parse (url_String (Client.BaseUrl c) +:+ "/user/-/profile.json") = inl u ->
  url_String u = url_String (Client.BaseUrl c) +:+ "/user/-/profile.json" ->
  exists r events,
    Client.UserProfile c w
    = (Some r,
       (w ++ Sent (Request.mk _ "GET" u {["User-Agent" := [USER_AGENT]]} EmptyString)
          :: events)%list)
    /\ sends events = 0%nat.
Proof.
  intros Hpath Haddr Hround.
  rewrite UserProfile_paths, (NewRequest_get _ _ _ u Hpath Haddr Hround). simpl.
  destruct (RoundTrip _ _) as [resp | err]; [| by eexists _, []].
  simpl. destruct (_ || _); [by eexists _, _ |].
  destruct (json_Unmarshal _ _) as [new [err |]]; by eexists _, _.
Qed.

(** X13. The day string is not checked, but one that makes the path or
    the address fail to parse is refused on the spot: the accessor returns
    the error of the parse with a zero summary, and nothing is sent. *)
Theorem ActivitySummaryForDay_unparsable c (dayString : string) w (err : error) :
  url_Parse ("/user/-/activities/date/" +:+ dayString +:+ ".json") = inr err
  \/ ((exists p, url_Parse ("/user/-/activities/date/" +:+ dayString +:+ ".json") = inl p)
      /\ url_Parse (url_String (Client.BaseUrl c)
                    +:+ "/user/-/activities/date/" +:+ dayString +:+ ".json") = inr err) ->
  Client.ActivitySummaryForDay c dayString w
  = (Some (ActivitySummary.zero, Some err), w).
Proof.
  intros Hbad. rewrite ActivitySummaryForDay_paths, NewRequest_paths. simpl.
  destruct Hbad as [-> | [[p ->] ->]]; reflexivity.
Qed.

(** X14. [ActivitySummaryForDay] returns a nil error exactly when the
    request is built, the server answers it with a status code in
    [200, 299], and the decoder accepts the body for a zero summary; the
    summary returned is the one decoded. *)
Theorem ActivitySummaryForDay_succeeds_iff c (dayString : string) w
    (summary : ActivitySummary.t) :
  (exists w', Client.ActivitySummaryForDay c dayString w = (Some (summary, None), w'))
  <-> exists req (resp : Response.t),
        Client.NewRequest c "GET" ("/user/-/activities/date/" +:+ dayString +:+ ".json")
          (@None no_payload) w = (Some (inl req), w)
        /\ RoundTrip (Client.Client c) req = inl resp
        /\ ok_status resp
        /\ json_Unmarshal (content (Response.Body resp)) ActivitySummary.zero
           = (summary, None).
Proof.
  rewrite ActivitySummaryForDay_paths.
  destruct (NewRequest_pure (P := no_payload) c "GET"
              ("/user/-/activities/date/" +:+ dayString +:+ ".json") None) as [r Hr].
  rewrite !Hr. simpl. split.
  - intros [w' Hrun]. destruct r as [req | e]; [| discriminate].
    exists req.
    destruct (RoundTrip _ req) as [resp | e]; [| discriminate].
    exists resp. simpl in Hrun.
    destruct (_ || _) eqn:Htest; [discriminate |].
    apply status_test_false_iff in Htest.
    destruct (json_Unmarshal _ _) as [new [e |]]; [discriminate |].
    by injection Hrun as -> _.
  - intros (req & resp & [= ->] & -> & Hok & Hdec). simpl.
    rewrite (status_test_ok _ Hok), Hdec. by eexists.
Qed.

(** X15. [UserProfile] returns a nil error exactly when the request is
    built, the server answers it with a status code in [200, 299], and the
    decoder accepts the body for a zero profile; the profile returned is
    the one decoded. *)
Theorem UserProfile_succeeds_iff c w (profile : UserProfile.t) :
  (exists w', Client.UserProfile c w = (Some (profile, None), w'))
  <-> exists req (resp : Response.t),
        Client.NewRequest c "GET" "/user/-/profile.json" (@None no_payload) w
        = (Some (inl req), w)
        /\ RoundTrip (Client.Client c) req = inl resp
        /\ ok_status resp
        /\ json_Unmarshal (content (Response.Body resp)) UserProfile.zero
           = (profile, None).
Proof.
  rewrite UserProfile_paths.
  destruct (NewRequest_pure (P := no_payload) c "GET" "/user/-/profile.json" None)
    as [r Hr].
  rewrite !Hr. simpl. split.
  - intros [w' Hrun]. destruct r as [req | e]; [| discriminate].
    exists req.
    destruct (RoundTrip _ req) as [resp | e]; [| discriminate].
    exists resp. simpl in Hrun.
    destruct (_ || _) eqn:Htest; [discriminate |].
    apply status_test_false_iff in Htest.
    destruct (json_Unmarshal _ _) as [new [e |]]; [discriminate |].
    by injection Hrun as -> _.
  - intros (req & resp & [= ->] & -> & Hok & Hdec). simpl.
    rewrite (status_test_ok _ Hok), Hdec. by eexists.
Qed.

(** X16. Neither accessor panics, and each sends at most one request:
    one when its request could be built, none when it could not. *)
Theorem accessors_one_request c (dayString : string) w :
  (exists r events,
     Client.ActivitySummaryForDay c dayString w = (Some r, (w ++ events)%list)
     /\ sends events
        = match (Client.NewRequest c "GET"
                   ("/user/-/activities/date/" +:+ dayString +:+ ".json")
                   (@None no_payload) w).1 with
          | Some (inl _) => 1%nat
          | _ => 0%nat
          end)
  /\ (exists r events,
        Client.UserProfile c w = (Some r, (w ++ events)%list)
        /\ sends events
           = match (Client.NewRequest c "GET" "/user/-/profile.json"
                      (@None no_payload) w).1 with
             | Some (inl _) => 1%nat
             | _ => 0%nat
             end).
Proof.
  split.
  - rewrite ActivitySummaryForDay_paths.
    destruct (NewRequest_pure (P := no_payload) c "GET"
                ("/user/-/activities/date/" +:+ dayString +:+ ".json") None) as [r ->].
    simpl. destruct r as [req | e]; [| exists (ActivitySummary.zero, Some e), [];
                                       by rewrite app_nil_r].
    destruct (RoundTrip _ req) as [resp | e]; [| by eexists _, _].
    simpl. destruct (_ || _); [by eexists _, _ |].
    destruct (json_Unmarshal _ _) as [new [e |]]; by eexists _, _.
  - rewrite UserProfile_paths.
    destruct (NewRequest_pure (P := no_payload) c "GET" "/user/-/profile.json" None)
      as [r ->].
    simpl. destruct r as [req | e]; [| exists (UserProfile.zero, Some e), [];
                                       by rewrite app_nil_r].
    destruct (RoundTrip _ req) as [resp | e]; [| by eexists _, _].
    simpl. destruct (_ || _); [by eexists _, _ |].
    destruct (json_Unmarshal _ _) as [new [e |]]; by eexists _, _.
Qed.


End MoreAccessors.

Lemma ActivitySummaryForDay_request_witness :
  exists r events,
    Client.ActivitySummaryForDay (Stub.client (Stub.server "200 OK" 200 golden))
      "2013-06-27" []
    = (Some r,
       ([] ++ Sent (Request.mk Stub.lib "GET"
                      "https://api.fitbit.com/1/user/-/activities/date/2013-06-27.json"
                      {["User-Agent" := [USER_AGENT]]} EmptyString)
           :: events)%list)
    /\ sends events = 0%nat.
Proof.
  apply (ActivitySummaryForDay_request (Stub.client (Stub.server "200 OK" 200 golden))
           "2013-06-27" []
           "https://api.fitbit.com/1/user/-/activities/date/2013-06-27.json").
  - by eexists.
  - reflexivity.
  - reflexivity.
Defined.

Lemma UserProfile_request_witness :
  exists r events,
    Client.UserProfile (Stub.client Stub.unreachable) []
    = (Some r,
       ([] ++ Sent (Request.mk Stub.lib "GET"
                      "https://api.fitbit.com/1/user/-/profile.json"
                      {["User-Agent" := [USER_AGENT]]} EmptyString)
           :: events)%list)
    /\ sends events = 0%nat.
Proof.
  apply (UserProfile_request (Stub.client Stub.unreachable) []
           "https://api.fitbit.com/1/user/-/profile.json").
  - by eexists.
  - reflexivity.
  - reflexivity.
Defined.

Lemma ActivitySummaryForDay_unparsable_witness :
  Client.ActivitySummaryForDay (Stub.client (Stub.server "200 OK" 200 golden)) "%zz" []
  = (Some (ActivitySummary.zero,
           Some (url_Error "parse" "/user/-/activities/date/%zz.json"
                   (errorString "not an address the stub knows"))),
     []).
Proof.
  apply (ActivitySummaryForDay_unparsable
           (Stub.client (Stub.server "200 OK" 200 golden)) "%zz" []).
  left. reflexivity.
Defined.


(** * Properties of the records and the factory *)










(** X20. Every client that [NewClient] builds, whatever the configuration
    and the token, works through the *http.Client the configuration makes
    for the token and is bound to the one base URL, the parse of BASE_URL;
    so each request it builds is for the text of that URL followed by the
    path, parsed, printed and parsed again. *)
Theorem NewClient_bound_to_base `{OAuth2} (cfg : oauth2_Config) (tok : oauth2_Token)
    (base : url_URL) :
  url_Parse BASE_URL = inl base ->
  exists c,
    ConfigSource.NewClient (NewConfigSource cfg) tok = Some c
    /\ Client.Client c = oauth2_Config_Client cfg tok
    /\ Client.BaseUrl c = base
    /\ forall (P : Type) (encoder : Marshaler P) (method path : string)
              (body : option P) (w w' : list event) (req : Request.t),
         Client.NewRequest c method path body w = (Some (inl req), w') ->
         exists u,
           url_Parse (url_String base +:+ path) = inl u
           /\ url_Parse (url_String u) = inl (Request.URL req).
Proof.
  intros Hbase.
  unfold ConfigSource.NewClient, NewConfigSource, NewClient, baseURL. simpl.
  rewrite Hbase. simpl. eexists. split; [reflexivity |]. simpl.
  split; [reflexivity |]. split; [reflexivity |].
  intros P HP method path body w w' req. rewrite NewRequest_paths. simpl.
  destruct (url_Parse path) as [p |]; [| discriminate].
  destruct (url_Parse (_ +:+ path)) as [u |]; [| discriminate].
  destruct (match body with Some v => Encode v | None => inl EmptyString end);
    [| discriminate].
  simpl. destruct (validMethod _); [| discriminate].
  destruct (url_Parse (url_String u)) as [u' |] eqn:Hu; [| discriminate].
  intros [= <- _]. by exists u.
Qed.

Lemma NewClient_bound_to_base_witness :
  exists c : Client.t,
    @ConfigSource.NewClient Stub.lib StubOAuth2.lib
      (@NewConfigSource Stub.lib StubOAuth2.lib (Stub.server "200 OK" 200 golden))
      "token"
    = Some c
    /\ Client.Client c = Stub.server "200 OK" 200 golden
    /\ Client.BaseUrl c = "https://api.fitbit.com/1"
    /\ forall (P : Type) (encoder : Marshaler P) (method path : string)
              (body : option P) (w w' : list event) (req : Request.t),
         Client.NewRequest c method path body w = (Some (inl req), w') ->
         exists u : string,
           Stub.Parse ("https://api.fitbit.com/1" +:+ path) = inl u
           /\ Stub.Parse u = inl (Request.URL req).
Proof.
  apply (@NewClient_bound_to_base Stub.lib StubOAuth2.lib
           (Stub.server "200 OK" 200 golden) "token" "https://api.fitbit.com/1").
  reflexivity.
Defined.

(** * The replies decoded, for any name and any counts *)

Section Replies.

Import Json.

Lemma scan_literal_InString (c : ascii) (r : string) :
  scan_literal InString (String c r)
  = if Ascii.eqb c dquote then inl (EmptyString, r)
    else if Ascii.eqb c "\" then prepend c (scan_literal InStringEsc r)
    else if code c <? 32 then inr Syntax
    else prepend c (scan_literal InString r).
Proof. reflexivity. Qed.

Lemma printable_inv (c : ascii) :
  printable c = true ->
  Ascii.eqb c dquote = false /\ Ascii.eqb c "\" = false /\ (code c <? 32) = false.
Proof.
  unfold printable. rewrite !andb_true_iff, !negb_true_iff.
  intros [[[Hq Hb] H32] _]. repeat split; try done. apply Z.ltb_ge. lia.
Qed.

Lemma scan_literal_printable (name rest : string) :
  forallb printable (list_ascii_of_string name) = true ->
  scan_literal InString (name +:+ String dquote rest) = inl (name, rest).
Proof.
  induction name as [| c name IH]; intros Hall.
  - change (EmptyString +:+ String dquote rest) with (String dquote rest).
    by rewrite scan_literal_InString, Ascii.eqb_refl.
  - change (String c name +:+ String dquote rest)
      with (String c (name +:+ String dquote rest)).
    simpl in Hall. apply andb_true_iff in Hall as [Hc Hall].
    rewrite scan_literal_InString.
    apply printable_inv in Hc as (-> & -> & ->).
    by rewrite (IH Hall).
Qed.

Lemma unquote_printable (name : string) :
  forallb printable (list_ascii_of_string name) = true -> unquote name = name.
Proof.
  induction name as [| c name IH]; simpl; [reflexivity |].
  intros Hall. apply andb_true_iff in Hall as [Hc Hall].
  apply printable_inv in Hc as (_ & -> & _). by rewrite IH.
Qed.

Lemma scan_string_printable (name rest : string) :
  forallb printable (list_ascii_of_string name) = true ->
  scan_string (name +:+ String dquote rest) = inl (name, rest).
Proof.
  intros Hall. unfold scan_string.
  by rewrite scan_literal_printable, unquote_printable.
Qed.

Lemma scan_value_S (n : nat) (s : string) :
  scan_value (S n) s = value_step (scan_members n) (scan_elements n) s.
Proof. reflexivity. Qed.

Lemma scan_members_S (n : nat) (s : string) (acc : list (string * value)) :
  scan_members (S n) s acc = members_step (scan_value n) (scan_members n) s acc.
Proof. reflexivity. Qed.

Lemma readValue_profile_reply (name : string) :
  forallb printable (list_ascii_of_string name) = true ->
  readValue (profile_reply name)
  = inl (Object [("user", Object [("fullName", Str name)])]).
Proof.
  intros Hall. unfold readValue.
  rewrite <- (scan_value_fuel (profile_reply name)
                (6 + (2 * String.length (profile_reply name) + 2))) by lia.
  remember (2 * String.length (profile_reply name) + 2)%nat as n.
  change (6 + n)%nat with (S (S (S (S (S (S n)))))).
  change (profile_reply name) with
    (String "{" (String dquote ("user" +:+ String dquote (String ":" (String "{" (String dquote ("fullName" +:+ String dquote (String ":" (String dquote (name +:+ String dquote "}}")))))))))).
  cbn -[scan_value scan_members scan_elements scan_string String.app].
  rewrite scan_value_S. unfold value_step.
  cbn -[scan_value scan_members scan_elements scan_string String.app].
  rewrite scan_members_S. unfold members_step.
  cbn -[scan_value scan_members scan_elements scan_string String.app].
  rewrite (scan_string_printable "user") by reflexivity.
  cbn -[scan_value scan_members scan_elements scan_string String.app].
  rewrite scan_value_S. unfold value_step.
  cbn -[scan_value scan_members scan_elements scan_string String.app].
  rewrite scan_members_S. unfold members_step.
  cbn -[scan_value scan_members scan_elements scan_string String.app].
  rewrite (scan_string_printable "fullName") by reflexivity.
  cbn -[scan_value scan_members scan_elements scan_string String.app].
  rewrite scan_value_S. unfold value_step.
  cbn -[scan_value scan_members scan_elements scan_string String.app].
  rewrite (scan_string_printable name) by assumption.
  reflexivity.
Qed.

Lemma digits_before_brace (ds rest : string) :
  forallb isDigit (list_ascii_of_string ds) = true ->
  digits (ds +:+ String "}" rest) = (ds, String "}" rest).
Proof.
  induction ds as [| c ds IH]; intros Hall; [reflexivity |].
  simpl in Hall. apply andb_true_iff in Hall as [Hc Hall].
  change (String c ds +:+ String "}" rest) with (String c (ds +:+ String "}" rest)).
  cbn [digits]. rewrite Hc. by rewrite (IH Hall).
Qed.

Lemma app_empty (s : string) : s +:+ EmptyString = s.
Proof.
  induction s as [| c s IH]; [reflexivity |].
  change (String c s +:+ EmptyString) with (String c (s +:+ EmptyString)).
  by rewrite IH.
Qed.

Lemma integer_literal_digit (c : ascii) (r : string) :
  integer_literal (String c r) = true -> isDigit c = true.
Proof.
  simpl. destruct (Ascii.eqb c "0") eqn:Hzero.
  - apply Ascii.eqb_eq in Hzero as ->. reflexivity.
  - intros Hall. by apply andb_true_iff in Hall as [Hc _].
Qed.

Lemma digit_not (c x : ascii) :
  isDigit c = true -> isDigit x = false -> Ascii.eqb c x = false.
Proof.
  intros Hc Hx. destruct (Ascii.eqb c x) eqn:Heq; [| reflexivity].
  apply Ascii.eqb_eq in Heq as ->. congruence.
Qed.

Lemma scan_number_integer (lit rest : string) :
  integer_literal lit = true ->
  scan_number (lit +:+ String "}" rest) = inl (lit, String "}" rest).
Proof.
  destruct lit as [| c r]; [discriminate |]. intros Hlit.
  pose proof (integer_literal_digit _ _ Hlit) as Hc.
  change (String c r +:+ String "}" rest) with (String c (r +:+ String "}" rest)).
  unfold scan_number, scan_minus.
  rewrite (digit_not c "-" Hc eq_refl).
  unfold scan_int. simpl in Hlit.
  destruct (Ascii.eqb c "0") eqn:Hzero.
  - apply String.eqb_eq in Hlit as ->. apply Ascii.eqb_eq in Hzero as ->. reflexivity.
  - rewrite Hc. apply andb_true_iff in Hlit as [_ Hall].
    rewrite (digits_before_brace r rest Hall).
    cbn [scan_frac scan_exp]. simpl. by rewrite app_empty.
Qed.

Lemma value_step_integer members elements (lit rest : string) :
  integer_literal lit = true ->
  value_step members elements (lit +:+ String "}" rest)
  = inl (Number lit, String "}" rest).
Proof.
  intros Hlit. pose proof (scan_number_integer lit rest Hlit) as Hscan.
  destruct lit as [| c r]; [discriminate |].
  pose proof (integer_literal_digit _ _ Hlit) as Hc.
  change (String c r +:+ String "}" rest) with (String c (r +:+ String "}" rest)) in *.
  unfold value_step, next.
  assert (isSpace c = false) as Hspace.
  { unfold isSpace.
    by rewrite (digit_not c " " Hc eq_refl), (digit_not c "009" Hc eq_refl),
      (digit_not c "013" Hc eq_refl), (digit_not c "010" Hc eq_refl). }
  cbn [skip_space]. rewrite Hspace.
  rewrite (digit_not c "{" Hc eq_refl), (digit_not c "[" Hc eq_refl),
    (digit_not c dquote Hc eq_refl), (digit_not c "t" Hc eq_refl),
    (digit_not c "f" Hc eq_refl), (digit_not c "n" Hc eq_refl).
  by rewrite Hscan.
Qed.

Lemma readValue_summary_reply (goal steps : string) :
  integer_literal goal = true -> integer_literal steps = true ->
  readValue (summary_reply goal steps)
  = inl (Object [("goals", Object [("steps", Number goal)]);
                 ("summary", Object [("steps", Number steps)])]).
Proof.
  intros Hgoal Hsteps. unfold readValue.
  rewrite <- (scan_value_fuel (summary_reply goal steps)
                (8 + (2 * String.length (summary_reply goal steps) + 2))) by lia.
  remember (2 * String.length (summary_reply goal steps) + 2)%nat as n.
  change (8 + n)%nat with (S (S (S (S (S (S (S (S n)))))))).
  change (summary_reply goal steps) with
    (String "{" (String dquote ("goals" +:+ String dquote (String ":" (String "{" (String dquote ("steps" +:+ String dquote (String ":" (goal +:+ String "}" (String "," (String dquote ("summary" +:+ String dquote (String ":" (String "{" (String dquote ("steps" +:+ String dquote (String ":" (steps +:+ String "}" (String "}" EmptyString))))))))))))))))))).
  cbn -[scan_value scan_members scan_elements scan_string String.app].
  rewrite scan_value_S. unfold value_step at 1.
  cbn -[scan_value scan_members scan_elements scan_string String.app value_step].
  rewrite scan_members_S. unfold members_step at 1.
  cbn -[scan_value scan_members scan_elements scan_string String.app value_step].
  rewrite (scan_string_printable "goals") by reflexivity.
  cbn -[scan_value scan_members scan_elements scan_string String.app value_step].
  rewrite scan_value_S. unfold value_step at 1.
  cbn -[scan_value scan_members scan_elements scan_string String.app value_step].
  rewrite scan_members_S. unfold members_step at 1.
  cbn -[scan_value scan_members scan_elements scan_string String.app value_step].
  rewrite (scan_string_printable "steps") by reflexivity.
  cbn -[scan_value scan_members scan_elements scan_string String.app value_step].
  rewrite scan_value_S, (value_step_integer _ _ goal _ Hgoal).
  cbn -[scan_value scan_members scan_elements scan_string String.app value_step].
  rewrite scan_members_S. unfold members_step at 1.
  cbn -[scan_value scan_members scan_elements scan_string String.app value_step].
  rewrite (scan_string_printable "summary") by reflexivity.
  cbn -[scan_value scan_members scan_elements scan_string String.app value_step].
  rewrite scan_value_S. unfold value_step at 1.
  cbn -[scan_value scan_members scan_elements scan_string String.app value_step].
  rewrite scan_members_S. unfold members_step at 1.
  cbn -[scan_value scan_members scan_elements scan_string String.app value_step].
  rewrite (scan_string_printable "steps") by reflexivity.
  cbn -[scan_value scan_members scan_elements scan_string String.app value_step].
  rewrite scan_value_S, (value_step_integer _ _ steps _ Hsteps).
  reflexivity.
Qed.

End Replies.

(** X21. Whatever the full name, made of printable ASCII bytes other than
    the quote and the backslash: when the server answers the request of
    the profile with a status code in [200, 299] and the body
    [{"user":{"fullName":"<name>"}}], [UserProfile] returns no error and a
    profile whose User.FullName is that name. *)
Theorem UserProfile_full_name `{GoLib} (c : Client.t) (req : Request.t)
    (resp : Response.t) (w : list event) (name : string) :
  forallb printable (list_ascii_of_string name) = true ->
  Client.NewRequest c "GET" "/user/-/profile.json" (@None no_payload) w
  = (Some (inl req), w) ->
  RoundTrip (Client.Client c) req = inl resp ->
  ok_status resp ->
  content (Response.Body resp) = profile_reply name ->
  exists (profile : UserProfile.t) (w' : list event),
    Client.UserProfile c w = (Some (profile, None), w')
    /\ User.FullName (UserProfile.User profile) = name.
Proof.
  intros Hname Hreq Hresp Hok Hbody.
  rewrite UserProfile_paths, Hreq. simpl. rewrite Hresp. simpl.
  rewrite (status_test_ok _ Hok), Hbody.
  unfold json_Unmarshal, UserProfile_Unmarshaler, Json.Decode.
  rewrite (readValue_profile_reply name Hname).
  eexists _, _. split; reflexivity.
Qed.

Lemma UserProfile_full_name_witness :
  exists (profile : UserProfile.t) (w' : list event),
    Client.UserProfile
      (Stub.client (Stub.server "200 OK" 200 (js "{'user':{'fullName':'Jane Doe'}}")))
      []
    = (Some (profile, None), w')
    /\ User.FullName (UserProfile.User profile) = "Jane Doe".
Proof.
  apply (UserProfile_full_name
           (Stub.client (Stub.server "200 OK" 200 (js "{'user':{'fullName':'Jane Doe'}}")))
           Stub.request
           (Response.mk "200 OK" 200 ∅
              {| content := js "{'user':{'fullName':'Jane Doe'}}" |})
           [] "Jane Doe").
  - reflexivity.
  - rewrite NewRequest_paths. reflexivity.
  - reflexivity.
  - unfold ok_status. simpl. lia.
  - reflexivity.
Defined.

(** X22. Whatever the two step counts, written in decimal and within the
    range of a 64-bit integer: when the server answers the request of a
    day with a status code in [200, 299] and the body
    [{"goals":{"steps":<goal>},"summary":{"steps":<steps>}}],
    [ActivitySummaryForDay] returns no error and a summary whose
    Goals.Steps and Summary.Steps are the two counts. *)
Theorem ActivitySummaryForDay_steps `{GoLib} (c : Client.t) (dayString : string)
    (req : Request.t) (resp : Response.t) (w : list event)
    (goal steps : string) (n m : Z) :
  integer_literal goal = true -> integer_literal steps = true ->
  Json.ParseInt goal = Some n -> Json.ParseInt steps = Some m ->
  Client.NewRequest c "GET" ("/user/-/activities/date/" +:+ dayString +:+ ".json")
    (@None no_payload) w = (Some (inl req), w) ->
  RoundTrip (Client.Client c) req = inl resp ->
  ok_status resp ->
  content (Response.Body resp) = summary_reply goal steps ->
  exists (summary : ActivitySummary.t) (w' : list event),
    Client.ActivitySummaryForDay c dayString w = (Some (summary, None), w')
    /\ Goals.Steps (ActivitySummary.Goals summary) = n
    /\ Summary.Steps (ActivitySummary.Summary summary) = m.
Proof.
  intros Hgoal Hsteps Hn Hm Hreq Hresp Hok Hbody.
  rewrite ActivitySummaryForDay_paths, Hreq. simpl. rewrite Hresp. simpl.
  rewrite (status_test_ok _ Hok), Hbody.
  unfold json_Unmarshal, ActivitySummary_Unmarshaler, Json.Decode.
  rewrite (readValue_summary_reply goal steps Hgoal Hsteps).
  cbv -[Json.ParseInt]. rewrite Hn, Hm.
  eexists _, _. split; [reflexivity |]. split; reflexivity.
Qed.

Lemma ActivitySummaryForDay_steps_witness :
  exists (summary : ActivitySummary.t) (w' : list event),
    Client.ActivitySummaryForDay
      (Stub.client (Stub.server "200 OK" 200 (summary_reply "12345" "0")))
      "2013-06-27" []
    = (Some (summary, None), w')
    /\ Goals.Steps (ActivitySummary.Goals summary) = 12345
    /\ Summary.Steps (ActivitySummary.Summary summary) = 0.
Proof.
  apply (ActivitySummaryForDay_steps
           (Stub.client (Stub.server "200 OK" 200 (summary_reply "12345" "0")))
           "2013-06-27"
           (Request.mk Stub.lib "GET"
              "https://api.fitbit.com/1/user/-/activities/date/2013-06-27.json"
              {["User-Agent" := [USER_AGENT]]} EmptyString)
           (Response.mk "200 OK" 200 ∅ {| content := summary_reply "12345" "0" |})
           [] "12345" "0").
  - reflexivity.
  - reflexivity.
  - reflexivity.
  - reflexivity.
  - rewrite NewRequest_paths. reflexivity.
  - reflexivity.
  - unfold ok_status. simpl. lia.
  - reflexivity.
Defined.

(** X23. A goal of steps that does not fit a 64-bit integer makes
    [ActivitySummaryForDay] fail with the type error of the decoder for
    that number; Goals.Steps stays zero, and the decoder has gone on: the
    Summary.Steps of the same reply is stored in the summary returned. *)
Theorem ActivitySummaryForDay_goal_overflow `{GoLib} (c : Client.t)
    (dayString : string) (req : Request.t) (resp : Response.t) (w : list event)
    (goal steps : string) (m : Z) :
  integer_literal goal = true -> integer_literal steps = true ->
  Json.ParseInt goal = None -> Json.ParseInt steps = Some m ->
  Client.NewRequest c "GET" ("/user/-/activities/date/" +:+ dayString +:+ ".json")
    (@None no_payload) w = (Some (inl req), w) ->
  RoundTrip (Client.Client c) req = inl resp ->
  ok_status resp ->
  content (Response.Body resp) = summary_reply goal steps ->
  exists (summary : ActivitySummary.t) (w' : list event),
    Client.ActivitySummaryForDay c dayString w
    = (Some (summary, Some (json_UnmarshalTypeError ("number " +:+ goal) "int")), w')
    /\ Goals.Steps (ActivitySummary.Goals summary) = 0
    /\ Summary.Steps (ActivitySummary.Summary summary) = m.
Proof.
  intros Hgoal Hsteps Hn Hm Hreq Hresp Hok Hbody.
  rewrite ActivitySummaryForDay_paths, Hreq. simpl. rewrite Hresp. simpl.
  rewrite (status_test_ok _ Hok), Hbody.
  unfold json_Unmarshal, ActivitySummary_Unmarshaler, Json.Decode.
  rewrite (readValue_summary_reply goal steps Hgoal Hsteps).
  cbv -[Json.ParseInt]. rewrite Hn, Hm.
  eexists _, _. split; [reflexivity |]. split; reflexivity.
Qed.

Lemma ActivitySummaryForDay_goal_overflow_witness :
  exists (summary : ActivitySummary.t) (w' : list event),
    Client.ActivitySummaryForDay
      (Stub.client
         (Stub.server "200 OK" 200 (summary_reply "9223372036854775808" "8000")))
      "2013-06-27" []
    = (Some (summary,
             Some (json_UnmarshalTypeError ("number " +:+ "9223372036854775808") "int")),
       w')
    /\ Goals.Steps (ActivitySummary.Goals summary) = 0
    /\ Summary.Steps (ActivitySummary.Summary summary) = 8000.
Proof.
  apply (ActivitySummaryForDay_goal_overflow
           (Stub.client
              (Stub.server "200 OK" 200 (summary_reply "9223372036854775808" "8000")))
           "2013-06-27"
           (Request.mk Stub.lib "GET"
              "https://api.fitbit.com/1/user/-/activities/date/2013-06-27.json"
              {["User-Agent" := [USER_AGENT]]} EmptyString)
           (Response.mk "200 OK" 200 ∅
              {| content := summary_reply "9223372036854775808" "8000" |})
           [] "9223372036854775808" "8000").
  - reflexivity.
  - reflexivity.
  - reflexivity.
  - reflexivity.
  - rewrite NewRequest_paths. reflexivity.
  - reflexivity.
  - unfold ok_status. simpl. lia.
  - reflexivity.
Defined.

(** X24. Once a response is received, an accessor never leaves its body
    open: Close has been called on it once when the accessor returns an
    error, and twice when it returns none. *)
Theorem accessors_close_count `{GoLib} (c : Client.t) (dayString : string)
    (w : list event) (req req' : Request.t) (resp resp' : Response.t) :
  (Client.NewRequest c "GET" ("/user/-/activities/date/" +:+ dayString +:+ ".json")
     (@None no_payload) w = (Some (inl req), w) ->
   RoundTrip (Client.Client c) req = inl resp ->
   exists summary err w',
     Client.ActivitySummaryForDay c dayString w = (Some (summary, err), w')
     /\ closes (Response.Body resp) w'
        = (closes (Response.Body resp) w
           + match err with Some _ => 1 | None => 2 end)%nat)
  /\ (Client.NewRequest c "GET" "/user/-/profile.json" (@None no_payload) w
      = (Some (inl req'), w) ->
      RoundTrip (Client.Client c) req' = inl resp' ->
      exists profile err w',
        Client.UserProfile c w = (Some (profile, err), w')
        /\ closes (Response.Body resp') w'
           = (closes (Response.Body resp') w
              + match err with Some _ => 1 | None => 2 end)%nat).
Proof.
  split; intros Hreq Hresp.
  - rewrite ActivitySummaryForDay_paths, Hreq. simpl. rewrite Hresp. simpl.
    destruct (_ || _); [| destruct (json_Unmarshal _ _) as [new [e |]]];
      eexists _, _, _; (split; [reflexivity |]);
      rewrite closes_app, !closes_cons, !same_body_refl; unfold closes; simpl; lia.
  - rewrite UserProfile_paths, Hreq. simpl. rewrite Hresp. simpl.
    destruct (_ || _); [| destruct (json_Unmarshal _ _) as [new [e |]]];
      eexists _, _, _; (split; [reflexivity |]);
      rewrite closes_app, !closes_cons, !same_body_refl; unfold closes; simpl; lia.
Qed.

Lemma accessors_close_count_witness :
  (exists summary err w',
     Client.ActivitySummaryForDay (Stub.client (Stub.server "200 OK" 200 half_right))
       "2013-06-27" []
     = (Some (summary, err), w')
     /\ closes {| content := half_right |} w'
        = (closes {| content := half_right |} []
           + match err with Some _ => 1 | None => 2 end)%nat)
  /\ (exists profile err w',
        Client.UserProfile
          (Stub.client (Stub.server "200 OK" 200 (profile_reply "Jane Doe"))) []
        = (Some (profile, err), w')
        /\ closes {| content := profile_reply "Jane Doe" |} w'
           = (closes {| content := profile_reply "Jane Doe" |} []
              + match err with Some _ => 1 | None => 2 end)%nat).
Proof.
  split.
  - apply (proj1 (accessors_close_count
                    (Stub.client (Stub.server "200 OK" 200 half_right)) "2013-06-27" []
                    (Request.mk Stub.lib "GET"
                       "https://api.fitbit.com/1/user/-/activities/date/2013-06-27.json"
                       {["User-Agent" := [USER_AGENT]]} EmptyString)
                    Stub.request
                    (Response.mk "200 OK" 200 ∅ {| content := half_right |})
                    (Response.mk "200 OK" 200 ∅ {| content := half_right |}))).
    + rewrite NewRequest_paths. reflexivity.
    + reflexivity.
  - apply (proj2 (accessors_close_count
                    (Stub.client (Stub.server "200 OK" 200 (profile_reply "Jane Doe")))
                    EmptyString [] Stub.request Stub.request
                    (Response.mk "200 OK" 200 ∅
                       {| content := profile_reply "Jane Doe" |})
                    (Response.mk "200 OK" 200 ∅
                       {| content := profile_reply "Jane Doe" |}))).
    + rewrite NewRequest_paths. reflexivity.
    + reflexivity.
Defined.
